(** * Bot.py: the scheduling bot, embedded and verified

    A shallow embedding of [Bot.py]: the two global dictionaries
    ([channels], [scheduled_messages]), the two JSON files that
    [save_data] writes and [load_data] reads, the job queue of the
    library, and every handler that [main] registers.  State is passed
    explicitly; a handler returns the new state, the Telegram calls it
    made, and the exception that left it, if any. *)

From Stdlib Require Import ZArith List String Ascii Bool Lia.
From Stdlib Require Import DecimalString DecimalZ.
Import ListNotations.

Open Scope string_scope.
Open Scope Z_scope.

(** ** Python dictionaries

    A [dict] keeps its keys in insertion order, so it is an association
    list; a Python dictionary never holds a key twice ([dict_wf]).
    A Python [str] is a [string], one [ascii] per character. *)

Module Dict.

Definition dict (V : Type) : Type := list (string * V).

Definition keys {V} (d : dict V) : list string := map fst d.
Definition values {V} (d : dict V) : list V := map snd d.

Definition dict_wf {V} (d : dict V) : Prop := NoDup (keys d).

(** [d[k]]; [None] is Python's [KeyError]. *)
Fixpoint get {V} (k : string) (d : dict V) : option V :=
  match d with
  | [] => None
  | (k', v) :: r => if String.eqb k k' then Some v else get k r
  end.

(** [k in d] *)
Definition mem {V} (k : string) (d : dict V) : bool :=
  match get k d with Some _ => true | None => false end.

(** [d[k] = v]: an existing key keeps its place, a new one goes last. *)
Fixpoint set {V} (k : string) (v : V) (d : dict V) : dict V :=
  match d with
  | [] => [(k, v)]
  | (k', v') :: r =>
      if String.eqb k k' then (k, v) :: r else (k', v') :: set k v r
  end.

(** [del d[k]]; every use is guarded by [k in d], so the [KeyError] of an
    absent key does not arise. *)
Fixpoint del {V} (k : string) (d : dict V) : dict V :=
  match d with
  | [] => []
  | (k', v') :: r => if String.eqb k k' then r else (k', v') :: del k r
  end.

End Dict.
Import Dict.

(** ** JSON values, as [json.load] returns them and [json.dump] takes them *)

#[local] Set Warnings "-register-all".

Inductive json : Type :=
| JNull
| JBool (b : bool)
| JInt (z : Z)
| JStr (s : string)
| JArr (l : list json)
| JObj (o : list (string * json)).

(** Python is untyped where the model is typed: these read a JSON value at
    the type the model gives to the field it is bound to. *)
Definition as_int (j : json) : option Z :=
  match j with JInt z => Some z | _ => None end.
Definition as_str (j : json) : option string :=
  match j with JStr s => Some s | _ => None end.
Definition as_bool (j : json) : option bool :=
  match j with JBool b => Some b | _ => None end.
Definition as_obj (j : json) : option (dict json) :=
  match j with JObj o => Some o | _ => None end.

Fixpoint as_str_dict (o : dict json) : option (dict string) :=
  match o with
  | [] => Some []
  | (k, j) :: r =>
      match as_str j, as_str_dict r with
      | Some s, Some d => Some ((k, s) :: d)
      | _, _ => None
      end
  end.

(** A file on disk: missing, present with a text [json.load] rejects, or
    present with a JSON document. *)
Inductive file : Type :=
| Absent
| Garbled
| Holds (j : json).

(** ** [datetime] and [timedelta]

    Both count microseconds: a [datetime] from the Unix epoch, within
    [datetime.min .. datetime.max]; arithmetic that leaves the range raises
    [OverflowError], here [None].  The zone of the process is taken as UTC,
    so that [timestamp()] of a naive [datetime] is its count over 10^6. *)

Definition datetime : Type := Z.
Definition timedelta : Type := Z.

Definition datetime_min : datetime := -62135596800 * 1000000.
Definition datetime_max : datetime := 253402300799 * 1000000 + 999999.

(** [timedelta(minutes=m)]: the day count is bounded by 999999999. *)
Definition timedelta_minutes (m : Z) : option timedelta :=
  let days := (m * 60) / 86400 in
  if Z.abs days <=? 999999999 then Some (m * 60 * 1000000) else None.

(** [t + d] *)
Definition datetime_add (t : datetime) (d : timedelta) : option datetime :=
  let r := t + d in
  if (datetime_min <=? r) && (r <=? datetime_max) then Some r else None.

(** [int(t.timestamp())]: whole seconds, truncated towards zero.  The code
    goes through a float of seconds, which holds a reading to the
    microsecond as long as the seconds stay below 2^34: up to
    [float_exact_until], in the year 2514, the truncation here is the
    code's. *)
Definition int_timestamp (t : datetime) : Z := Z.quot t 1000000.


(** [str(n)] for an integer. *)
Definition str_of_int (n : Z) : string := NilEmpty.string_of_int (Z.to_int n).

(** [f"msg_{int(t.timestamp())}"], the id [schedule_message] gives to a
    message created at clock reading [t]. *)
Definition new_message_id (t : datetime) : string :=
  "msg_" ++ str_of_int (int_timestamp t).

(** ** String operations of the handlers *)

(** [s.startswith(p)] *)
Fixpoint startswith (p s : string) : bool :=
  match p, s with
  | EmptyString, _ => true
  | String a p', String b s' => Ascii.eqb a b && startswith p' s'
  | String _ _, EmptyString => false
  end.

(** [s[n:]] *)
Fixpoint slice_from (n : nat) (s : string) : string :=
  match n, s with
  | O, _ => s
  | S n', String _ s' => slice_from n' s'
  | S _, EmptyString => EmptyString
  end.

(** [s[:n]] *)
Fixpoint slice_to (n : nat) (s : string) : string :=
  match n, s with
  | O, _ => EmptyString
  | S n', String a s' => String a (slice_to n' s')
  | S _, EmptyString => EmptyString
  end.

(** [' '.join(l)] *)
Definition join_space (l : list string) : string := String.concat " " l.

(** [len(s)] *)
Definition len (s : string) : Z := Z.of_nat (String.length s).

(** ** The data of the bot *)

(** A job of the library's queue.  [run_once] hands out a fresh handle;
    [job_when] is the delay in seconds it was armed with. *)
Record Job : Type := mkJob {
  job_handle : nat;
  job_name : string;
  job_data : string;
  job_when : Z
}.

(** [class ScheduledMessage]; [job] holds the handle of the queue's job,
    [None] where the constructor's default was taken. *)
Record ScheduledMessage : Type := mkMsg {
  message_id : string;
  chat_id : Z;
  text : string;
  scheduled_time : datetime;
  channel : string;
  job : option nat;
  active : bool
}.

(** The globals of the module, the two storage files and the queue. *)
Record State : Type := mkState {
  channels : dict string;
  scheduled_messages : dict ScheduledMessage;
  channels_file : file;
  messages_file : file;
  jobs : list Job;
  next_handle : nat
}.

Definition set_channels (c : dict string) (st : State) : State :=
  mkState c (scheduled_messages st) (channels_file st) (messages_file st)
    (jobs st) (next_handle st).

Definition set_messages (m : dict ScheduledMessage) (st : State) : State :=
  mkState (channels st) m (channels_file st) (messages_file st)
    (jobs st) (next_handle st).

Definition set_files (cf mf : file) (st : State) : State :=
  mkState (channels st) (scheduled_messages st) cf mf (jobs st) (next_handle st).

(** [job_queue.run_once(callback, when, data=d, name=n)]; arming is the
    library's and is taken to succeed. *)
Definition run_once (when : Z) (d n : string) (st : State) : nat * State :=
  let h := next_handle st in
  (h, mkState (channels st) (scheduled_messages st) (channels_file st)
        (messages_file st) (jobs st ++ [mkJob h n d when]) (S h)).

(** The state with the job [h] out of the queue. *)
Definition without_job (h : nat) (st : State) : State :=
  mkState (channels st) (scheduled_messages st) (channels_file st)
    (messages_file st)
    (filter (fun j => negb (Nat.eqb (job_handle j) h)) (jobs st))
    (next_handle st).

(** [job.schedule_removal()]: the job is taken out of the queue; for a job
    that is no longer there, because it has run, the library raises
    [JobLookupError], here [None]. *)
Definition schedule_removal (h : nat) (st : State) : option State :=
  match find (fun j => Nat.eqb (job_handle j) h) (jobs st) with
  | Some _ => Some (without_job h st)
  | None => None
  end.

(** The state [state_wf] holds of is one Python can be in: no dictionary
    holds a key twice. *)
Definition state_wf (st : State) : Prop :=
  dict_wf (channels st) /\ dict_wf (scheduled_messages st).

(** ** What a handler is given and what it gives back *)

(** [update]: who sent it, in which chat, whether [update.message] is set
    (it is not for an edited message or a button press) and the data of the
    callback query, if the update is one. *)
Record Update : Type := mkUpdate {
  effective_user : Z;
  effective_chat : Z;
  message : bool;
  callback_query : option string
}.

(** [context]: the words after the command, and the readings of
    [datetime.now()], numbered in the order the handler takes them. *)
Record Context : Type := mkContext {
  args : list string;
  now : nat -> datetime
}.

(** A chat a message is sent to: the requester's numeric id, or the
    identifier string of a channel. *)
Inductive Chat : Type :=
| ChatId (z : Z)
| ChannelId (s : string).

(** One line of the [/listschedule] reply. *)
Record Listing : Type := mkListing {
  l_id : string;
  l_channel : string;
  l_text : string;
  l_time : datetime;
  l_minutes : Z;
  l_active : bool
}.

(** The texts of [reply_text], by the place that sends them. *)
Inductive Reply : Type :=
| Unauthorized
| Welcome
| Help
| UsageAddChannel
| InvalidChannelId
| ChannelNameExists (name : string)
| ChannelAdded (name id : string)
| NoChannels
| ChannelList (c : dict string)
| UsageDeleteChannel
| ChannelNotFound (name : string)
| ChannelHasMessages (name : string)
| ChannelDeleted (name : string)
| UsageSchedule
| ScheduleChannelNotFound (name : string)
| PositiveTimeRequired
| MessageTooLong
| InvalidNumber
| MessageScheduled (txt name : string) (time : datetime) (id : string)
| NoScheduledMessages
| ScheduledList (l : list Listing).

(** The texts of [query.edit_message_text]. *)
Inductive Edit : Type :=
| MessageEnabled (txt id : string)
| MessageDisabled (txt id : string)
| MessageDeleted.

(** The texts of [context.bot.send_message]. *)
Inductive Sent : Type :=
| Plain (txt : string)
| SentNotice (name txt : string)
| ErrorNotice (name detail : string).

(** The calls a handler makes on Telegram, in order. *)
Inductive Call : Type :=
| reply_text (r : Reply)
| answer
| edit_message_text (e : Edit)
| send_message (to : Chat) (m : Sent).

Inductive Exn : Type :=
| AttributeError
| OverflowError
| JobLookupError
| SendError (detail : string).

Record Result : Type := mkResult {
  state : State;
  calls : list Call;
  raised : option Exn
}.

(** [context.bot.send_message] as the environment answers it: [Some detail]
    is an exception with that [str(e)].  The other calls are taken to reach
    Telegram. *)
Definition Transport : Type := Chat -> Sent -> option string.

(** The library functions the handlers call and the model does not look
    into: [str.lower], [int] on a string ([None] is its [ValueError]),
    [datetime.isoformat] and [datetime.fromisoformat] ([None] is its
    [ValueError]). *)
Record Library : Type := mkLibrary {
  str_lower : string -> string;
  str_int : string -> option Z;
  dt_isoformat : datetime -> string;
  dt_fromisoformat : string -> option datetime
}.

(** ** Sample data

    A library instance and a few states on which the handlers are run:
    [Sample.lower] lowers ASCII letters as [str.lower] does, [Sample.int]
    reads plain decimal numerals as [int] does, and the two date functions
    know the dates the samples use. *)

Module Sample.

Definition lower_ascii (c : ascii) : ascii :=
  let n := nat_of_ascii c in
  if ((65 <=? n) && (n <=? 90))%nat then ascii_of_nat (n + 32) else c.

Fixpoint lower (s : string) : string :=
  match s with
  | EmptyString => EmptyString
  | String c r => String (lower_ascii c) (lower r)
  end.

Definition int (s : string) : option Z :=
  match s with
  | EmptyString => None
  | String "-" EmptyString => None
  | String "-" r =>
      match NilEmpty.uint_of_string r with
      | Some d => Some (- Z.of_uint d)
      | None => None
      end
  | _ =>
      match NilEmpty.uint_of_string s with
      | Some d => Some (Z.of_uint d)
      | None => None
      end
  end.

(** 2020-01-01 00:00:00, 2023-11-14 22:13:20 and the same day 22:23:20 and
    22:23:20.5, in microseconds. *)
Definition new_year : datetime := 1577836800000000.
Definition evening : datetime := 1700000000000000.
Definition autumn : datetime := 1700000600000000.
Definition autumn_half : datetime := 1700000600500000.

Definition isoformat (t : datetime) : string :=
  if t =? new_year then "2020-01-01T00:00:00"
  else if t =? autumn then "2023-11-14T22:23:20"
  else if t =? autumn_half then "2023-11-14T22:23:20.500000"
  else "".

Definition fromisoformat (s : string) : option datetime :=
  if String.eqb s "2020-01-01T00:00:00" then Some new_year
  else if String.eqb s "2023-11-14T22:23:20" then Some autumn
  else if String.eqb s "2023-11-14T22:23:20.500000" then Some autumn_half
  else None.

Definition lib : Library := mkLibrary lower int isoformat fromisoformat.

Definition operator : Z := 42.

(** A command typed by the operator, by somebody else, and a button the
    operator presses. *)
Definition typed : Update := mkUpdate 42 42 true None.
Definition intruder : Update := mkUpdate 666 666 true None.
Definition pressed (data : string) : Update := mkUpdate 42 42 false (Some data).

(** A context whose clock reads [t0] first and [t1] from then on. *)
Definition context (a : list string) (t0 t1 : datetime) : Context :=
  mkContext a (fun i => match i with O => t0 | S _ => t1 end).

(** Telegram delivers every message. *)
Definition delivers : Transport := fun _ _ => None.

(** Telegram refuses every message; Telegram refuses what goes to a
    channel and delivers what goes to a user. *)
Definition refuses : Transport := fun _ _ => Some "Forbidden".
Definition channel_down : Transport :=
  fun to _ => match to with ChannelId _ => Some "Forbidden" | ChatId _ => None end.

(** One delivery, created 2019-12-31 23:50:00 for ten minutes later. *)
Definition hello : ScheduledMessage :=
  mkMsg "msg_1577836200" 42 "hello" new_year "ops" (Some 0%nat) true.

Definition hello_off : ScheduledMessage :=
  mkMsg "msg_1577836200" 42 "hello" new_year "ops" (Some 0%nat) false.

Definition channels_json : json := JObj [("ops", JStr "-100555")].

Definition messages_json (on : bool) : json :=
  JObj [("msg_1577836200",
         JObj [("chat_id", JInt 42); ("text", JStr "hello");
               ("scheduled_time", JStr "2020-01-01T00:00:00");
               ("channel", JStr "ops"); ("active", JBool on)])].

Definition hello_job : Job := mkJob 0 "msg_1577836200" "msg_1577836200" 600.

(** The bot with the channel [ops] and the delivery pending, active ... *)
Definition running : State :=
  mkState [("ops", "-100555")] [("msg_1577836200", hello)]
    (Holds channels_json) (Holds (messages_json true)) [hello_job] 1.

(** ... switched off ... *)
Definition paused : State :=
  mkState [("ops", "-100555")] [("msg_1577836200", hello_off)]
    (Holds channels_json) (Holds (messages_json false)) [hello_job] 1.

(** ... and with a registry that has lost the channel. *)
Definition orphaned : State :=
  mkState [] [("msg_1577836200", hello)]
    (Holds (JObj [])) (Holds (messages_json true)) [hello_job] 1.

(** The channel alone. *)
Definition idle : State :=
  mkState [("ops", "-100555")] [] (Holds channels_json) (Holds (JObj [])) [] 0.

End Sample.

Notation "x <- e ;; k" :=
  (match e with Some x => k | None => None end)
  (at level 61, e at next level, right associativity).

Section Bot.

#[local] Set Default Proof Using "Type".

(** The configured operator, [int(os.getenv('YOUR_USER_ID'))]. *)
Variable YOUR_USER_ID : Z.

(** The library the handlers call. *)
Variable lib : Library.

#[local] Abbreviation lower := (str_lower lib).
#[local] Abbreviation int_of_str := (str_int lib).
#[local] Abbreviation isoformat := (dt_isoformat lib).
#[local] Abbreviation fromisoformat := (dt_fromisoformat lib).

(** ** Persistence: [save_data], [load_data], [main] *)

(** The dictionary [save_data] builds for one message. *)
Definition json_of_message (msg_data : ScheduledMessage) : json :=
  JObj [ ("chat_id", JInt (chat_id msg_data));
         ("text", JStr (text msg_data));
         ("scheduled_time", JStr (isoformat (scheduled_time msg_data)));
         ("channel", JStr (channel msg_data));
         ("active", JBool (active msg_data)) ].

(** The loop of [save_data] over [scheduled_messages.items()]. *)
Definition messages_to_save (msgs : dict ScheduledMessage) : dict json :=
  fold_left (fun acc kv => set (fst kv) (json_of_message (snd kv)) acc) msgs [].

Definition json_of_channels (c : dict string) : json :=
  JObj (map (fun kv => (fst kv, JStr (snd kv))) c).

(** [save_data()]; the writes themselves are taken to succeed. *)
Definition save_data (st : State) : State :=
  set_files (Holds (json_of_channels (channels st)))
            (Holds (JObj (messages_to_save (scheduled_messages st)))) st.

(** The [ScheduledMessage(...)] call of [load_data]; [job] takes its
    default.  [None] is the exception the enclosing [try] catches: a
    [msg_data] that is no dictionary, a missing key, a [scheduled_time] that
    is no string or that [fromisoformat] rejects.  Python would bind a
    [chat_id], [text], [channel] or [active] of any JSON type; the record of
    the model is typed, a file with such a field has no counterpart in it and
    is read as the except branch reads it. *)
Definition message_of_json (msg_id : string) (msg_data : json)
  : option ScheduledMessage :=
  o <- as_obj msg_data ;;
  c <- get "chat_id" o ;; c <- as_int c ;;
  t <- get "text" o ;; t <- as_str t ;;
  s <- get "scheduled_time" o ;; s <- as_str s ;;
  time <- fromisoformat s ;;
  ch <- get "channel" o ;; ch <- as_str ch ;;
  a <- get "active" o ;; a <- as_bool a ;;
  Some (mkMsg msg_id c t time ch None a).

(** The loop of [load_data] over [saved_messages.items()], assigning into
    the global dictionary as it goes. *)
Fixpoint load_messages (items : dict json) (acc : dict ScheduledMessage)
  : option (dict ScheduledMessage) :=
  match items with
  | [] => Some acc
  | (msg_id, msg_data) :: r =>
      m <- message_of_json msg_id msg_data ;;
      load_messages r (set msg_id m acc)
  end.

(** [load_data()].  A file that is missing leaves the global as it is; any
    exception resets it to the empty dictionary.  A channels file that holds
    JSON other than an object of strings has no counterpart in the typed
    model and is read as the except branch reads it. *)
Definition load_data (st : State) : State :=
  let c :=
    match channels_file st with
    | Absent => channels st
    | Garbled => []
    | Holds j =>
        match (o <- as_obj j ;; as_str_dict o) with
        | Some d => d
        | None => []
        end
    end in
  let m :=
    match messages_file st with
    | Absent => scheduled_messages st
    | Garbled => []
    | Holds j =>
        match (o <- as_obj j ;; load_messages o (scheduled_messages st)) with
        | Some d => d
        | None => []
        end
    end in
  set_messages m (set_channels c st).

(** The process as it starts: empty globals, the files as found on disk and
    the empty queue of a freshly built [Application]. *)
Definition fresh (cf mf : file) : State := mkState [] [] cf mf [] 0.

(** [main()] up to [run_polling]: the only thing done with the persisted
    data is [load_data]. *)
Definition main (cf mf : file) : State := load_data (fresh cf mf).

(** Stopping the process in state [st] and starting it again. *)
Definition restart (st : State) : State :=
  main (channels_file st) (messages_file st).

(** ** Results *)

Definition done (st : State) (cs : list Call) : Result := mkResult st cs None.

(** [await update.message.reply_text(r)] as the last step of a handler. *)
Definition reply (u : Update) (r : Reply) (st : State) : Result :=
  if message u then mkResult st [reply_text r] None
  else mkResult st [] (Some AttributeError).

(** [check_authorized(update)] *)
Definition check_authorized (u : Update) : bool * list Call :=
  if negb (effective_user u =? YOUR_USER_ID)
  then (false, if message u then [reply_text Unauthorized] else [])
  else (true, []).

(** ** The command handlers *)

(** [start] *)
Definition start (u : Update) (ctx : Context) (st : State) : Result :=
  let (ok, cs) := check_authorized u in
  if negb ok then done st cs else reply u Welcome st.

(** [help_command] *)
Definition help_command (u : Update) (ctx : Context) (st : State) : Result :=
  let (ok, cs) := check_authorized u in
  if negb ok then done st cs else reply u Help st.

(** [add_channel] *)
Definition add_channel (u : Update) (ctx : Context) (st : State) : Result :=
  let (ok, cs) := check_authorized u in
  if negb ok then done st cs else
  match args ctx with
  | channel_id :: a1 :: _ =>
      let channel_name := lower a1 in
      if negb (startswith "-100" channel_id) then reply u InvalidChannelId st
      else if mem channel_name (channels st)
      then reply u (ChannelNameExists channel_name) st
      else
        let st := set_channels (set channel_name channel_id (channels st)) st in
        let st := save_data st in
        reply u (ChannelAdded channel_name channel_id) st
  | _ => reply u UsageAddChannel st
  end.

(** [list_channels] *)
Definition list_channels (u : Update) (ctx : Context) (st : State) : Result :=
  let (ok, cs) := check_authorized u in
  if negb ok then done st cs else
  match channels st with
  | [] => reply u NoChannels st
  | c => reply u (ChannelList c) st
  end.

(** [any(msg.channel == channel_name for msg in scheduled_messages.values())] *)
Definition channel_has_messages (channel_name : string)
    (msgs : dict ScheduledMessage) : bool :=
  existsb (fun msg => String.eqb (channel msg) channel_name) (values msgs).

(** [delete_channel] *)
Definition delete_channel (u : Update) (ctx : Context) (st : State) : Result :=
  let (ok, cs) := check_authorized u in
  if negb ok then done st cs else
  match args ctx with
  | [] => reply u UsageDeleteChannel st
  | a0 :: _ =>
      let channel_name := lower a0 in
      if negb (mem channel_name (channels st))
      then reply u (ChannelNotFound channel_name) st
      else if channel_has_messages channel_name (scheduled_messages st)
      then reply u (ChannelHasMessages channel_name) st
      else
        let st := set_channels (del channel_name (channels st)) st in
        let st := save_data st in
        reply u (ChannelDeleted channel_name) st
  end.

(** [scheduled_messages[k].job = job] and [scheduled_messages[k].active = b]:
    an attribute of the object stored under [k] is assigned. *)
Definition with_job (h : nat) (m : ScheduledMessage) : ScheduledMessage :=
  mkMsg (message_id m) (chat_id m) (text m) (scheduled_time m) (channel m)
    (Some h) (active m).

Definition with_active (b : bool) (m : ScheduledMessage) : ScheduledMessage :=
  mkMsg (message_id m) (chat_id m) (text m) (scheduled_time m) (channel m)
    (job m) b.

Definition assign {V} (k : string) (f : V -> V) (d : dict V) : dict V :=
  match get k d with
  | Some v => set k (f v) d
  | None => d
  end.

(** [schedule_message].  [int(context.args[1])] comes before every check and
    its [ValueError] is the only exception the handler catches; the
    [OverflowError] of the date arithmetic leaves it. *)
Definition schedule_message (u : Update) (ctx : Context) (st : State) : Result :=
  let (ok, cs) := check_authorized u in
  if negb ok then done st cs else
  match args ctx with
  | a0 :: a1 :: a2 :: rest =>
      let channel_name := lower a0 in
      match int_of_str a1 with
      | None => reply u InvalidNumber st
      | Some time_minutes =>
          let message_text := join_space (a2 :: rest) in
          if negb (mem channel_name (channels st))
          then reply u (ScheduleChannelNotFound channel_name) st
          else if time_minutes <=? 0 then reply u PositiveTimeRequired st
          else if len message_text >? 4000 then reply u MessageTooLong st
          else
            match (d <- timedelta_minutes time_minutes ;;
                   datetime_add (now ctx 0%nat) d) with
            | None => mkResult st [] (Some OverflowError)
            | Some scheduled_time =>
                let message_id := new_message_id (now ctx 1%nat) in
                let st :=
                  set_messages
                    (set message_id
                       (mkMsg message_id (effective_chat u) message_text
                          scheduled_time channel_name None true)
                       (scheduled_messages st)) st in
                let (job, st) :=
                  run_once (time_minutes * 60) message_id message_id st in
                let st :=
                  set_messages
                    (assign message_id (with_job job) (scheduled_messages st))
                    st in
                let st := save_data st in
                reply u (MessageScheduled message_text channel_name
                           scheduled_time message_id) st
            end
      end
  | _ => reply u UsageSchedule st
  end.

(** The loop of [list_scheduled_messages]; the [i]-th message reads the
    clock for the [i]-th time.  The code computes the minutes in floating
    point, [int(total_seconds() / 60)], which is this quotient for every
    delay short of some 5e8 minutes. *)
Fixpoint listing (clock : nat -> datetime) (i : nat)
    (items : dict ScheduledMessage) : list Listing :=
  match items with
  | [] => []
  | (msg_id, msg_data) :: r =>
      let time_remaining := scheduled_time msg_data - clock i in
      let minutes_remaining := Z.max 0 (Z.quot time_remaining 60000000) in
      mkListing msg_id (channel msg_data) (slice_to 50 (text msg_data))
        (scheduled_time msg_data) minutes_remaining (active msg_data)
      :: listing clock (S i) r
  end.

(** [list_scheduled_messages] *)
Definition list_scheduled_messages (u : Update) (ctx : Context) (st : State)
  : Result :=
  let (ok, cs) := check_authorized u in
  if negb ok then done st cs else
  match scheduled_messages st with
  | [] => reply u NoScheduledMessages st
  | items => reply u (ScheduledList (listing (now ctx) 0 items)) st
  end.

(** ** The button handler *)

(** [button_handler] *)
Definition button_handler (u : Update) (ctx : Context) (st : State) : Result :=
  let (ok, cs) := check_authorized u in
  if negb ok then done st cs else
  match callback_query u with
  | None => mkResult st [] (Some AttributeError)
  | Some data =>
      if startswith "enable_" data then
        let message_id := slice_from 7 data in
        match get message_id (scheduled_messages st) with
        | Some m =>
            let st :=
              set_messages
                (assign message_id (with_active true) (scheduled_messages st))
                st in
            let st := save_data st in
            done st [answer; edit_message_text (MessageEnabled (text m) message_id)]
        | None => done st [answer]
        end
      else if startswith "disable_" data then
        let message_id := slice_from 8 data in
        match get message_id (scheduled_messages st) with
        | Some m =>
            let st :=
              set_messages
                (assign message_id (with_active false) (scheduled_messages st))
                st in
            let st := save_data st in
            done st [answer; edit_message_text (MessageDisabled (text m) message_id)]
        | None => done st [answer]
        end
      else if startswith "delete_" data then
        let message_id := slice_from 7 data in
        match get message_id (scheduled_messages st) with
        | Some m =>
            (* Cancel the job *)
            match (match job m with
                   | Some h => schedule_removal h st
                   | None => Some st
                   end) with
            | None => mkResult st [answer] (Some JobLookupError)
            | Some st =>
                (* Remove from storage *)
                let st :=
                  set_messages (del message_id (scheduled_messages st)) st in
                let st := save_data st in
                done st [answer; edit_message_text MessageDeleted]
            end
        | None => done st [answer]
        end
      else done st [answer]
  end.

(** ** The job callback *)

(** The [try] of [send_scheduled_message]: the calls made, and the exception
    that leaves the [except] branch, if its own [send_message] fails. *)
Definition try_send (tr : Transport) (channel_id : string)
    (message_data : ScheduledMessage) : list Call * option Exn :=
  let to_channel := send_message (ChannelId channel_id)
                      (Plain (text message_data)) in
  let to_user := send_message (ChatId (chat_id message_data))
                   (SentNotice (channel message_data) (text message_data)) in
  let handler (before : list Call) (e : string) :=
    let report := ErrorNotice (channel message_data) e in
    let cs :=
      (before ++ [send_message (ChatId (chat_id message_data)) report])%list in
    match tr (ChatId (chat_id message_data)) report with
    | None => (cs, None)
    | Some e' => (cs, Some (SendError e'))
    end in
  match tr (ChannelId channel_id) (Plain (text message_data)) with
  | Some e => handler [to_channel] e
  | None =>
      match tr (ChatId (chat_id message_data))
               (SentNotice (channel message_data) (text message_data)) with
      | Some e => handler [to_channel; to_user] e
      | None => ([to_channel; to_user], None)
      end
  end.

(** [send_scheduled_message], for [job.data = message_id]. *)
Definition send_scheduled_message (tr : Transport) (message_id : string)
    (st : State) : Result :=
  match get message_id (scheduled_messages st) with
  | None => done st []
  | Some message_data =>
      let (cs, exn) :=
        if active message_data then
          match get (channel message_data) (channels st) with
          | Some channel_id => try_send tr channel_id message_data
          | None => ([], None)
          end
        else ([], None) in
      match exn with
      | Some e => mkResult st cs (Some e)
      | None =>
          (* Clean up *)
          if mem message_id (scheduled_messages st) then
            let st := set_messages (del message_id (scheduled_messages st)) st in
            let st := save_data st in
            done st cs
          else done st cs
      end
  end.

(** The queue runs the job with handle [h]: a one-shot job leaves the queue
    as its callback is called. *)
Definition fire (tr : Transport) (h : nat) (st : State) : Result :=
  match find (fun j => Nat.eqb (job_handle j) h) (jobs st) with
  | None => done st []
  | Some j => send_scheduled_message tr (job_data j) (without_job h st)
  end.

(** ** The bot as a transition system *)

(** The handlers [main] registers. *)
Inductive Handler : Type :=
| h_start
| h_help
| h_addchannel
| h_listchannels
| h_deletechannel
| h_schedule
| h_listschedule
| h_button.

Definition dispatch (h : Handler) : Update -> Context -> State -> Result :=
  match h with
  | h_start => start
  | h_help => help_command
  | h_addchannel => add_channel
  | h_listchannels => list_channels
  | h_deletechannel => delete_channel
  | h_schedule => schedule_message
  | h_listschedule => list_scheduled_messages
  | h_button => button_handler
  end.

(** What happens to a running bot: an update reaches a handler, or the
    queue runs a job. *)
Inductive Event : Type :=
| Handle (h : Handler) (u : Update) (ctx : Context)
| Fire (tr : Transport) (h : nat).

Definition step (st : State) (e : Event) : State :=
  match e with
  | Handle h u ctx => state (dispatch h u ctx st)
  | Fire tr h => state (fire tr h st)
  end.

Definition run (st : State) (es : list Event) : State := fold_left step es st.

(** ** Vocabulary of the properties *)

(** [listPending()]: the ids of the deliveries of the store, in the order of
    the dictionary, which is the order [/listschedule] shows them in. *)
Definition listPending (st : State) : list string :=
  keys (scheduled_messages st).

(** What the messages file keeps of a delivery: its id and every field but
    the job. *)
Definition persisted (kv : string * ScheduledMessage)
  : string * (Z * string * datetime * string * bool) :=
  (fst kv, (chat_id (snd kv), text (snd kv), scheduled_time (snd kv),
            channel (snd kv), active (snd kv))).

(** A delivery as it comes back from the messages file: under its key, with
    the key for [message_id] and no job. *)
Definition reloaded (kv : string * ScheduledMessage)
  : string * ScheduledMessage :=
  (fst kv, mkMsg (fst kv) (chat_id (snd kv)) (text (snd kv))
             (scheduled_time (snd kv)) (channel (snd kv)) None (active (snd kv))).

(** The library's contract for the due times of a store: what [isoformat]
    prints, [fromisoformat] reads back. *)
Definition times_read_back (msgs : dict ScheduledMessage) : Prop :=
  forall id m, In (id, m) msgs ->
    fromisoformat (isoformat (scheduled_time m)) = Some (scheduled_time m).

(** The state a successful [/schedule] leaves. *)
Definition scheduled (st : State) (id : string) (m : ScheduledMessage)
    (when : Z) : State :=
  save_data
    (mkState (channels st)
       (set id (with_job (next_handle st) m) (scheduled_messages st))
       (channels_file st) (messages_file st)
       (jobs st ++ [mkJob (next_handle st) id id when])%list
       (S (next_handle st))).

(** Both files hold what memory holds: the registry and the store as
    [save_data] writes them. *)
Definition synced (st : State) : Prop :=
  channels_file st = Holds (json_of_channels (channels st))
  /\ messages_file st
     = Holds (JObj (messages_to_save (scheduled_messages st))).

(** Registry, store and files of [st'] are those of [st]. *)
Definition untouched (st st' : State) : Prop :=
  channels st' = channels st
  /\ scheduled_messages st' = scheduled_messages st
  /\ channels_file st' = channels_file st
  /\ messages_file st' = messages_file st.

(** An entry of the messages file on which the [ScheduledMessage(...)] call
    of [load_data] raises: it is no dictionary ([TypeError]), it lacks
    one of the five keys ([KeyError]), or its [scheduled_time] is no string
    ([TypeError]) or a string that [fromisoformat] rejects
    ([ValueError]). *)
Definition raises_on_load (msg_data : json) : Prop :=
  match msg_data with
  | JObj o =>
      get "chat_id" o = None
      \/ get "text" o = None
      \/ get "channel" o = None
      \/ get "active" o = None
      \/ match get "scheduled_time" o with
         | None => True
         | Some (JStr s) => fromisoformat s = None
         | Some _ => True
         end
  | _ => True
  end.


(** Every stored delivery names a registered channel. *)
Definition refs_ok (st : State) : Prop :=
  forall id m,
    get id (scheduled_messages st) = Some m ->
    mem (channel m) (channels st) = true.

(** What one event can do to the state.  The flag tells whether a job was
    armed. *)
Inductive effect (st : State) : bool -> State -> Prop :=
| eff_none : effect st false st
| eff_fired (h : nat) : effect st false (without_job h st)
| eff_add (name id : string) :
    mem name (channels st) = false ->
    effect st false
      (save_data (set_channels (set name id (channels st)) st))
| eff_remove (name : string) :
    mem name (channels st) = true ->
    channel_has_messages name (scheduled_messages st) = false ->
    effect st false (save_data (set_channels (del name (channels st)) st))
| eff_create (id : string) (m : ScheduledMessage) (when : Z) :
    mem (channel m) (channels st) = true ->
    effect st true (scheduled st id m when)
| eff_toggle (id : string) (b : bool) (m : ScheduledMessage) :
    get id (scheduled_messages st) = Some m ->
    effect st false
      (save_data
         (set_messages (set id (with_active b m) (scheduled_messages st)) st))
| eff_retire (id : string) (m : ScheduledMessage) (h : option nat) :
    get id (scheduled_messages st) = Some m ->
    let st0 := match h with
               | Some h => without_job h st
               | None => st
               end in
    effect st false
      (save_data (set_messages (del id (scheduled_messages st0)) st0)).

(** A call that sends to a channel. *)
Definition to_a_channel (c : Call) : bool :=
  match c with
  | send_message (ChannelId _) _ => true
  | _ => false
  end.

(** * Properties *)

(** ** Dictionaries *)

Section DictFacts.

Context {V : Type}.
Implicit Types (d : dict V) (k : string) (v : V).

Lemma get_In_keys k d : get k d <> None <-> In k (keys d).
Proof.
  induction d as [|[k' v'] r IH]; simpl.
  - split; [congruence | tauto].
  - destruct (String.eqb_spec k k') as [->|Hne].
    + split; [auto | congruence].
    + rewrite IH. split; [auto | intros [E|H]; [congruence | exact H]].
Qed.

Lemma mem_In_keys k d : mem k d = true <-> In k (keys d).
Proof.
  unfold mem. rewrite <- get_In_keys.
  destruct (get k d); split; congruence.
Qed.

Lemma mem_false_keys k d : mem k d = false <-> ~ In k (keys d).
Proof.
  rewrite <- mem_In_keys. destruct (mem k d); split; congruence.
Qed.

Lemma get_set_same k v d : get k (set k v d) = Some v.
Proof.
  induction d as [|[k' v'] r IH]; simpl.
  - now rewrite String.eqb_refl.
  - destruct (String.eqb_spec k k') as [->|Hne]; simpl.
    + now rewrite String.eqb_refl.
    + destruct (String.eqb_spec k k'); [congruence | exact IH].
Qed.

Lemma get_set_other k k' v d : k' <> k -> get k' (set k v d) = get k' d.
Proof.
  intros Hne. induction d as [|[k0 v0] r IH]; simpl.
  - destruct (String.eqb_spec k' k); [congruence | reflexivity].
  - destruct (String.eqb_spec k k0) as [->|Hk]; simpl.
    + destruct (String.eqb_spec k' k0); [congruence | reflexivity].
    + destruct (String.eqb_spec k' k0); [reflexivity | exact IH].
Qed.

Lemma set_fresh k v d : ~ In k (keys d) -> set k v d = (d ++ [(k, v)])%list.
Proof.
  induction d as [|[k' v'] r IH]; simpl; intros Hn; [reflexivity|].
  destruct (String.eqb_spec k k') as [->|Hne]; [tauto|].
  f_equal. apply IH. tauto.
Qed.

Lemma set_app_fresh k v (a b : dict V) :
  ~ In k (keys a) -> set k v (a ++ b)%list = (a ++ set k v b)%list.
Proof.
  induction a as [|[k' v'] r IH]; simpl; intros Hn; [reflexivity|].
  destruct (String.eqb_spec k k') as [->|Hne]; [tauto|].
  f_equal. apply IH. tauto.
Qed.

Lemma keys_set_present k v d : In k (keys d) -> keys (set k v d) = keys d.
Proof.
  induction d as [|[k' v'] r IH]; simpl; intros Hin; [tauto|].
  destruct (String.eqb_spec k k') as [->|Hne]; simpl; [reflexivity|].
  f_equal. apply IH. destruct Hin; [congruence | assumption].
Qed.

Lemma keys_set_fresh k v d :
  ~ In k (keys d) -> keys (set k v d) = (keys d ++ [k])%list.
Proof.
  intros Hn. rewrite (set_fresh _ _ _ Hn). unfold keys.
  now rewrite map_app.
Qed.

Lemma set_wf k v d : dict_wf d -> dict_wf (set k v d).
Proof.
  unfold dict_wf. intros Hwf.
  destruct (in_dec string_dec k (keys d)) as [Hin|Hn].
  - now rewrite keys_set_present.
  - rewrite keys_set_fresh by assumption.
    apply NoDup_app; [assumption | repeat constructor; simpl; tauto |].
    intros x Hx [<-|[]]. contradiction.
Qed.

Lemma set_set k v v' d : set k v' (set k v d) = set k v' d.
Proof.
  induction d as [|[k' v0] r IH]; simpl.
  - now rewrite String.eqb_refl.
  - destruct (String.eqb_spec k k') as [->|Hne]; simpl.
    + now rewrite String.eqb_refl.
    + destruct (String.eqb_spec k k'); [congruence | now rewrite IH].
Qed.

Lemma set_get_same k v d : get k d = Some v -> set k v d = d.
Proof.
  induction d as [|[k' v0] r IH]; simpl; [congruence|].
  destruct (String.eqb_spec k k') as [->|Hne].
  - congruence.
  - intros H. now rewrite IH.
Qed.

Lemma keys_del_incl k k' d : In k' (keys (del k d)) -> In k' (keys d).
Proof.
  induction d as [|[k0 v0] r IH]; simpl; [tauto|].
  destruct (String.eqb_spec k k0) as [->|Hne]; simpl; [tauto|].
  intros [E|H]; [auto | right; auto].
Qed.

Lemma del_wf k d : dict_wf d -> dict_wf (del k d).
Proof.
  unfold dict_wf.
  induction d as [|[k' v'] r IH]; simpl; intros Hwf; [constructor|].
  inversion Hwf as [|x l Hx Hl]; subst.
  destruct (String.eqb_spec k k') as [->|Hne]; simpl; [assumption|].
  constructor; [|auto].
  intros Hin. apply Hx. eapply keys_del_incl; eassumption.
Qed.

Lemma del_not_in k d : dict_wf d -> ~ In k (keys (del k d)).
Proof.
  unfold dict_wf.
  induction d as [|[k' v'] r IH]; simpl; intros Hwf; [tauto|].
  inversion Hwf as [|x l Hx Hl]; subst.
  destruct (String.eqb_spec k k') as [->|Hne]; simpl; [assumption|].
  intros [E|H]; [congruence | now apply IH].
Qed.

Lemma get_del_same k d : dict_wf d -> get k (del k d) = None.
Proof.
  intros Hwf. destruct (get k (del k d)) eqn:E; [|reflexivity].
  exfalso. apply (del_not_in k d Hwf). apply get_In_keys. congruence.
Qed.

Lemma get_del_other k k' d : k' <> k -> get k' (del k d) = get k' d.
Proof.
  intros Hne. induction d as [|[k0 v0] r IH]; simpl; [reflexivity|].
  destruct (String.eqb_spec k k0) as [->|Hk]; simpl.
  - destruct (String.eqb_spec k' k0); [congruence | reflexivity].
  - destruct (String.eqb_spec k' k0); [reflexivity | exact IH].
Qed.

Lemma get_In k v d : get k d = Some v -> In (k, v) d.
Proof.
  induction d as [|[k' v'] r IH]; simpl; [congruence|].
  destruct (String.eqb_spec k k') as [->|Hne].
  - intros [= ->]. now left.
  - intros H. right. auto.
Qed.

Lemma In_get k v d : dict_wf d -> In (k, v) d -> get k d = Some v.
Proof.
  unfold dict_wf.
  induction d as [|[k' v'] r IH]; simpl; intros Hwf; [tauto|].
  inversion Hwf as [|x l Hx Hl]; subst.
  intros [[= -> ->]|Hin].
  - now rewrite String.eqb_refl.
  - destruct (String.eqb_spec k k') as [->|Hne]; [|auto].
    exfalso. apply Hx. change (In (fst (k', v)) (map fst r)).
    now apply in_map.
Qed.

Lemma count_keys_set k v d :
  dict_wf d -> count_occ string_dec (keys (set k v d)) k = 1%nat.
Proof.
  intros Hwf.
  apply (proj1 (NoDup_count_occ' string_dec _) (set_wf k v d Hwf)).
  apply get_In_keys. rewrite get_set_same. congruence.
Qed.

End DictFacts.

(** ** Authorization *)

Lemma check_authorized_no u :
  effective_user u <> YOUR_USER_ID ->
  check_authorized u
  = (false, if message u then [reply_text Unauthorized] else []).
Proof.
  intros H. unfold check_authorized.
  destruct (Z.eqb_spec (effective_user u) YOUR_USER_ID); [contradiction|].
  reflexivity.
Qed.

Lemma check_authorized_yes u :
  effective_user u = YOUR_USER_ID -> check_authorized u = (true, []).
Proof.
  intros H. unfold check_authorized. rewrite H, Z.eqb_refl. reflexivity.
Qed.

Lemma dispatch_unauthorized h u ctx st :
  effective_user u <> YOUR_USER_ID ->
  dispatch h u ctx st
  = done st (if message u then [reply_text Unauthorized] else []).
Proof.
  intros H.
  destruct h; simpl;
    unfold start, help_command, add_channel, list_channels, delete_channel,
      schedule_message, list_scheduled_messages, button_handler;
    rewrite (check_authorized_no u H); reflexivity.
Qed.

Lemma run_app st es1 es2 : run st (es1 ++ es2) = run (run st es1) es2.
Proof. unfold run. apply fold_left_app. Qed.

(** C10. An update from a user other than the configured operator leaves
    every handler before anything is changed: the registry, the store, both
    files and the job queue are those it was called with, and the only call
    made is the refusal, sent when the update carries a message.  A run of
    the bot ends in the same state with or without such an update. *)
Theorem unauthorized_update_changes_nothing :
  forall (h : Handler) (u : Update) (ctx : Context) (st : State),
    effective_user u <> YOUR_USER_ID ->
    dispatch h u ctx st
    = mkResult st (if message u then [reply_text Unauthorized] else []) None
    /\ forall (st0 : State) (before after : list Event),
         run st0 (before ++ Handle h u ctx :: after)
         = run st0 (before ++ after).
Proof.
  intros h u ctx st H. split.
  - exact (dispatch_unauthorized h u ctx st H).
  - intros st0 before after. rewrite !run_app. simpl.
    now rewrite (dispatch_unauthorized h u ctx _ H).
Qed.

(** ** The job callback *)

Lemma listing_ids clock i items :
  map l_id (listing clock i items) = keys items.
Proof.
  revert i. induction items as [|[k m] r IH]; intros i; simpl;
    [reflexivity | now rewrite IH].
Qed.

Lemma send_skipped tr id m st :
  state_wf st ->
  get id (scheduled_messages st) = Some m ->
  active m = false \/ get (channel m) (channels st) = None ->
  send_scheduled_message tr id st
  = done (save_data (set_messages (del id (scheduled_messages st)) st)) [].
Proof.
  intros Hwf Hget Hskip. unfold send_scheduled_message. rewrite Hget.
  assert (Hmem : mem id (scheduled_messages st) = true)
    by (unfold mem; now rewrite Hget).
  destruct Hskip as [Ha|Hc].
  - rewrite Ha, Hmem. reflexivity.
  - rewrite Hc, Hmem. now destruct (active m).
Qed.

Lemma list_scheduled_shows u ctx st l :
  In (reply_text (ScheduledList l)) (calls (list_scheduled_messages u ctx st)) ->
  map l_id l = keys (scheduled_messages st).
Proof.
  unfold list_scheduled_messages, check_authorized, reply, done.
  destruct (negb (effective_user u =? YOUR_USER_ID)), (message u),
    (scheduled_messages st) as [|p q]; simpl;
    intros H; repeat (destruct H as [H|H]; try discriminate H); try tauto.
  injection H as <-. exact (listing_ids (now ctx) 0 (p :: q)).
Qed.

(** C4. A delivery that is disabled when its job runs is not sent: the
    callback makes no call at all, and still removes the delivery from the
    store and rewrites the files, so [listPending] and the reply to
    [/listschedule] no longer show it. *)
Theorem disabled_delivery_is_retired_unsent :
  forall (tr : Transport) (st : State) (id : string) (m : ScheduledMessage),
    state_wf st ->
    get id (scheduled_messages st) = Some m ->
    active m = false ->
    let r := send_scheduled_message tr id st in
    calls r = []
    /\ raised r = None
    /\ scheduled_messages (state r) = del id (scheduled_messages st)
    /\ get id (scheduled_messages (state r)) = None
    /\ ~ In id (listPending (state r))
    /\ (forall u ctx l,
          In (reply_text (ScheduledList l))
             (calls (list_scheduled_messages u ctx (state r))) ->
          ~ In id (map l_id l))
    /\ messages_file (state r)
       = Holds (JObj (messages_to_save (del id (scheduled_messages st))))
    /\ channels (state r) = channels st.
Proof.
  intros tr st id m Hwf Hget Hact r. subst r.
  rewrite (send_skipped tr id m st Hwf Hget (or_introl Hact)). simpl.
  destruct Hwf as [_ Hm].
  repeat split; auto using get_del_same.
  - now apply del_not_in.
  - intros u ctx l Hin.
    rewrite (list_scheduled_shows _ _ _ _ Hin). now apply del_not_in.
Qed.

(** The callback taken by itself, on a state in which the channel of the
    delivery is not registered: nothing is sent, neither to a channel nor to
    the requester, and the delivery is removed.  No run of the bot brings a
    job to such a state, as is shown further down. *)
Lemma unknown_channel_is_retired_silently :
  forall (tr : Transport) (st : State) (id : string) (m : ScheduledMessage),
    state_wf st ->
    get id (scheduled_messages st) = Some m ->
    get (channel m) (channels st) = None ->
    let r := send_scheduled_message tr id st in
    calls r = []
    /\ raised r = None
    /\ scheduled_messages (state r) = del id (scheduled_messages st)
    /\ get id (scheduled_messages (state r)) = None
    /\ messages_file (state r)
       = Holds (JObj (messages_to_save (del id (scheduled_messages st)))).
Proof.
  intros tr st id m Hwf Hget Hch r. subst r.
  rewrite (send_skipped tr id m st Hwf Hget (or_intror Hch)). simpl.
  destruct Hwf as [_ Hm]. repeat split; auto using get_del_same.
Qed.

Lemma send_absent tr id st :
  get id (scheduled_messages st) = None ->
  send_scheduled_message tr id st = done st [].
Proof. intros H. unfold send_scheduled_message. now rewrite H. Qed.

Lemma send_returns tr id m st :
  get id (scheduled_messages st) = Some m ->
  raised (send_scheduled_message tr id st) = None ->
  state (send_scheduled_message tr id st)
  = save_data (set_messages (del id (scheduled_messages st)) st).
Proof.
  intros Hget. unfold send_scheduled_message. rewrite Hget.
  assert (Hmem : mem id (scheduled_messages st) = true)
    by (unfold mem; now rewrite Hget).
  rewrite Hmem.
  destruct (if active m then _ else _) as [cs [e|]]; simpl;
    [discriminate | reflexivity].
Qed.

(** ** The buttons *)

Lemma button_enable u ctx st id :
  effective_user u = YOUR_USER_ID ->
  callback_query u = Some ("enable_" ++ id) ->
  button_handler u ctx st
  = match get id (scheduled_messages st) with
    | Some m =>
        done (save_data
                (set_messages
                   (assign id (with_active true) (scheduled_messages st)) st))
          [answer; edit_message_text (MessageEnabled (text m) id)]
    | None => done st [answer]
    end.
Proof.
  intros Hu Hq. unfold button_handler.
  rewrite (check_authorized_yes u Hu), Hq. reflexivity.
Qed.

Lemma button_disable u ctx st id :
  effective_user u = YOUR_USER_ID ->
  callback_query u = Some ("disable_" ++ id) ->
  button_handler u ctx st
  = match get id (scheduled_messages st) with
    | Some m =>
        done (save_data
                (set_messages
                   (assign id (with_active false) (scheduled_messages st)) st))
          [answer; edit_message_text (MessageDisabled (text m) id)]
    | None => done st [answer]
    end.
Proof.
  intros Hu Hq. unfold button_handler.
  rewrite (check_authorized_yes u Hu), Hq. reflexivity.
Qed.

Lemma button_delete u ctx st id :
  effective_user u = YOUR_USER_ID ->
  callback_query u = Some ("delete_" ++ id) ->
  button_handler u ctx st
  = match get id (scheduled_messages st) with
    | Some m =>
        match (match job m with
               | Some h => schedule_removal h st
               | None => Some st
               end) with
        | None => mkResult st [answer] (Some JobLookupError)
        | Some st1 =>
            done (save_data
                    (set_messages (del id (scheduled_messages st1)) st1))
              [answer; edit_message_text MessageDeleted]
        end
    | None => done st [answer]
    end.
Proof.
  intros Hu Hq. unfold button_handler.
  rewrite (check_authorized_yes u Hu), Hq. reflexivity.
Qed.

Lemma button_delete_returned u ctx st id :
  dict_wf (scheduled_messages st) ->
  effective_user u = YOUR_USER_ID ->
  callback_query u = Some ("delete_" ++ id) ->
  raised (button_handler u ctx st) = None ->
  get id (scheduled_messages (state (button_handler u ctx st))) = None.
Proof.
  intros Hm Hu Hq. rewrite (button_delete u ctx st id Hu Hq).
  destruct (get id (scheduled_messages st)) as [m|] eqn:Hget;
    [|intros _; exact Hget].
  destruct (job m) as [h|]; [unfold schedule_removal|].
  - destruct (find (fun j => Nat.eqb (job_handle j) h) (jobs st));
      [|discriminate].
    intros _. simpl. now apply get_del_same.
  - intros _. simpl. now apply get_del_same.
Qed.

(** C9. The job callback for an id the store does not hold changes nothing
    and calls nothing, and so does the delete button for such an id, which
    only answers the query.  That is the case of a second run: once the
    callback has returned for an id, or the delete button has been pressed
    for it and its handler has returned, the id is gone and doing it again
    is such a no-op. *)
Theorem absent_delivery_is_a_no_op :
  forall (st : State) (id : string),
    state_wf st ->
    (get id (scheduled_messages st) = None ->
       (forall tr, send_scheduled_message tr id st = mkResult st [] None)
       /\ (forall u ctx,
             effective_user u = YOUR_USER_ID ->
             callback_query u = Some ("delete_" ++ id) ->
             button_handler u ctx st = mkResult st [answer] None))
    /\ (forall tr tr',
          let r := send_scheduled_message tr id st in
          raised r = None ->
          send_scheduled_message tr' id (state r) = mkResult (state r) [] None)
    /\ (forall u ctx u' ctx',
          effective_user u = YOUR_USER_ID ->
          effective_user u' = YOUR_USER_ID ->
          callback_query u = Some ("delete_" ++ id) ->
          callback_query u' = Some ("delete_" ++ id) ->
          let r := button_handler u ctx st in
          raised r = None ->
          button_handler u' ctx' (state r) = mkResult (state r) [answer] None).
Proof.
  intros st id [Hc Hm]. repeat split.
  - intros tr. now apply send_absent.
  - intros u ctx Hu Hq. rewrite (button_delete u ctx st id Hu Hq).
    match goal with Habs : get id _ = None |- _ => now rewrite Habs end.
  - intros tr tr' r Hr. apply send_absent.
    destruct (get id (scheduled_messages st)) as [m|] eqn:Hget.
    + subst r. rewrite (send_returns tr id m st Hget Hr). simpl.
      now apply get_del_same.
    + subst r. now rewrite (send_absent tr id st Hget).
  - intros u ctx u' ctx' Hu Hu' Hq Hq' r Hr.
    rewrite (button_delete u' ctx' (state r) id Hu' Hq').
    subst r. now rewrite (button_delete_returned u ctx st id Hm Hu Hq Hr).
Qed.

Lemma assign_present {V} k (f : V -> V) v (d : dict V) :
  get k d = Some v -> assign k f d = set k (f v) d.
Proof. intros H. unfold assign. now rewrite H. Qed.

(** C7. Pressing OFF and then ON for a pending delivery leaves the store
    with the same ids in the same order and every delivery as it was, but
    for the [active] field of the one addressed, which is false after OFF
    and true after ON; its text, due time, requester, channel, id and job
    are untouched, and so are the registry and the job queue.  A delivery
    that was active is exactly restored. *)
Theorem disable_then_enable_only_toggles_active :
  forall (u1 u2 : Update) (ctx1 ctx2 : Context) (st : State) (id : string)
         (m : ScheduledMessage),
    effective_user u1 = YOUR_USER_ID ->
    effective_user u2 = YOUR_USER_ID ->
    callback_query u1 = Some ("disable_" ++ id) ->
    callback_query u2 = Some ("enable_" ++ id) ->
    get id (scheduled_messages st) = Some m ->
    let st1 := state (button_handler u1 ctx1 st) in
    let st2 := state (button_handler u2 ctx2 st1) in
    get id (scheduled_messages st1)
    = Some (mkMsg (message_id m) (chat_id m) (text m) (scheduled_time m)
              (channel m) (job m) false)
    /\ get id (scheduled_messages st2)
       = Some (mkMsg (message_id m) (chat_id m) (text m) (scheduled_time m)
                 (channel m) (job m) true)
    /\ (forall k, k <> id ->
          get k (scheduled_messages st2) = get k (scheduled_messages st))
    /\ keys (scheduled_messages st2) = keys (scheduled_messages st)
    /\ channels st2 = channels st
    /\ jobs st2 = jobs st
    /\ (active m = true -> scheduled_messages st2 = scheduled_messages st).
Proof.
  intros u1 u2 ctx1 ctx2 st id m Hu1 Hu2 Hq1 Hq2 Hget st1 st2.
  assert (E1 : scheduled_messages st1
               = set id (with_active false m) (scheduled_messages st)).
  { subst st1. rewrite (button_disable u1 ctx1 st id Hu1 Hq1), Hget. simpl.
    now apply assign_present. }
  assert (G1 : get id (scheduled_messages st1) = Some (with_active false m))
    by (rewrite E1; apply get_set_same).
  assert (E2 : scheduled_messages st2
               = set id (with_active true m) (scheduled_messages st)).
  { subst st2. rewrite (button_enable u2 ctx2 st1 id Hu2 Hq2), G1. simpl.
    rewrite (assign_present _ _ _ _ G1), E1. apply set_set. }
  assert (F : channels st2 = channels st /\ jobs st2 = jobs st).
  { subst st2. rewrite (button_enable u2 ctx2 st1 id Hu2 Hq2), G1. simpl.
    subst st1. rewrite (button_disable u1 ctx1 st id Hu1 Hq1), Hget.
    simpl. auto. }
  destruct F as [Fc Fj].
  repeat split; auto.
  - rewrite E2. apply get_set_same.
  - intros k Hk. rewrite E2. now apply get_set_other.
  - rewrite E2. apply keys_set_present. apply get_In_keys. congruence.
  - intros Ha. rewrite E2. apply set_get_same. rewrite Hget. f_equal.
    destruct m; simpl in *. now subst.
Qed.

(** ** The registry *)

Lemma channel_has_messages_iff name (msgs : dict ScheduledMessage) :
  dict_wf msgs ->
  channel_has_messages name msgs = true
  <-> exists id m, get id msgs = Some m /\ channel m = name.
Proof.
  intros Hwf. unfold channel_has_messages, values.
  rewrite existsb_exists. split.
  - intros [m [Hin Heq]]. apply in_map_iff in Hin.
    destruct Hin as [[id m'] [E Hin]]. simpl in E. subst m'.
    exists id, m. split; [now apply In_get | now apply String.eqb_eq].
  - intros [id [m [Hget Hch]]]. exists m. split.
    + apply in_map_iff. exists (id, m). split; [reflexivity | now apply get_In].
    + now apply String.eqb_eq.
Qed.

(** C6. [/deletechannel] of a registered channel that some pending delivery
    names is refused with the has-scheduled-messages reply and leaves the
    registry, the store, the files and the queue as they were; of a
    registered channel that no pending delivery names it succeeds: the name
    is gone from the registry and from the [/listchannels] reply, the other
    channels and the store are kept, and the registry is written to its
    file. *)
Theorem delete_channel_respects_references :
  forall (u : Update) (ctx : Context) (st : State) (a0 : string)
         (rest : list string),
    state_wf st ->
    effective_user u = YOUR_USER_ID ->
    args ctx = a0 :: rest ->
    mem (lower a0) (channels st) = true ->
    let name := lower a0 in
    let r := delete_channel u ctx st in
    ((exists id m, get id (scheduled_messages st) = Some m /\ channel m = name) ->
       state r = st
       /\ (message u = true -> calls r = [reply_text (ChannelHasMessages name)]))
    /\ (~ (exists id m, get id (scheduled_messages st) = Some m /\ channel m = name) ->
          channels (state r) = del name (channels st)
          /\ mem name (channels (state r)) = false
          /\ (forall k, k <> name ->
                get k (channels (state r)) = get k (channels st))
          /\ scheduled_messages (state r) = scheduled_messages st
          /\ channels_file (state r)
             = Holds (json_of_channels (del name (channels st)))
          /\ (message u = true -> calls r = [reply_text (ChannelDeleted name)])
          /\ (forall u' ctx' c,
                In (reply_text (ChannelList c))
                   (calls (list_channels u' ctx' (state r))) ->
                ~ In name (keys c))).
Proof.
  intros u ctx st a0 rest [Hc Hm] Hu Hargs Hmem name r.
  assert (Hr : r = if channel_has_messages name (scheduled_messages st)
                   then reply u (ChannelHasMessages name) st
                   else reply u (ChannelDeleted name)
                          (save_data
                             (set_channels (del name (channels st)) st))).
  { subst r. unfold delete_channel.
    rewrite (check_authorized_yes u Hu), Hargs. simpl.
    fold name. unfold name at 1. rewrite Hmem. reflexivity. }
  pose proof (channel_has_messages_iff name _ Hm) as Hiff.
  split.
  - intros Href. apply Hiff in Href. rewrite Hr, Href. unfold reply.
    destruct (message u); simpl; split; auto; discriminate.
  - intros Hno.
    destruct (channel_has_messages name (scheduled_messages st)) eqn:E;
      [exfalso; apply Hno, Hiff; reflexivity|].
    rewrite Hr. unfold reply.
    assert (Hgone : ~ In name (keys (del name (channels st))))
      by now apply del_not_in.
    destruct (message u); simpl; repeat split; auto;
      try (now apply mem_false_keys);
      try (intros k Hk; now apply get_del_other);
      try discriminate.
    all: intros u' ctx' c; unfold list_channels, check_authorized, reply, done;
      destruct (negb (effective_user u' =? YOUR_USER_ID)), (message u');
      simpl; destruct (del name (channels st)) as [|p q] eqn:Hd; simpl;
      intros H; repeat (destruct H as [H|H]; try discriminate H); try tauto;
      injection H as <-; exact Hgone.
Qed.

(** ** Creating a delivery *)

Lemma timedelta_minutes_small m :
  0 <= m -> m * 60 * 1000000 <= datetime_max - datetime_min ->
  timedelta_minutes m = Some (m * 60 * 1000000).
Proof.
  intros H0 H1. unfold timedelta_minutes.
  unfold datetime_max, datetime_min in H1.
  assert (0 <= (m * 60) / 86400) by (apply Z.div_pos; lia).
  assert ((m * 60) / 86400 <= 999999999)
    by (apply Z.div_le_upper_bound; lia).
  rewrite Z.abs_eq by assumption.
  destruct (Z.leb_spec ((m * 60) / 86400) 999999999); [reflexivity | lia].
Qed.

Lemma datetime_add_in_range t d :
  datetime_min <= t + d <= datetime_max -> datetime_add t d = Some (t + d).
Proof.
  intros [H1 H2]. unfold datetime_add.
  destruct (Z.leb_spec datetime_min (t + d)); [|lia].
  destruct (Z.leb_spec (t + d) datetime_max); [reflexivity | lia].
Qed.

Lemma schedule_message_cases u ctx st a0 a1 a2 rest delay :
  effective_user u = YOUR_USER_ID ->
  args ctx = a0 :: a1 :: a2 :: rest ->
  int_of_str a1 = Some delay ->
  let name := lower a0 in
  let txt := join_space (a2 :: rest) in
  schedule_message u ctx st
  = if negb (mem name (channels st))
    then reply u (ScheduleChannelNotFound name) st
    else if delay <=? 0 then reply u PositiveTimeRequired st
    else if len txt >? 4000 then reply u MessageTooLong st
    else match (d <- timedelta_minutes delay ;; datetime_add (now ctx 0%nat) d) with
         | None => mkResult st [] (Some OverflowError)
         | Some due =>
             let id := new_message_id (now ctx 1%nat) in
             reply u (MessageScheduled txt name due id)
               (scheduled st id (mkMsg id (effective_chat u) txt due name None true)
                  (delay * 60))
         end.
Proof.
  intros Hu Hargs Hint name txt. unfold schedule_message.
  rewrite (check_authorized_yes u Hu), Hargs, Hint. simpl negb at 1. cbv iota.
  fold name. fold txt.
  destruct (negb (mem name (channels st))); [reflexivity|].
  destruct (delay <=? 0); [reflexivity|].
  destruct (len txt >? 4000); [reflexivity|].
  destruct (d <- timedelta_minutes delay ;; datetime_add (now ctx 0%nat) d)
    as [due|]; [|reflexivity].
  unfold run_once, scheduled. cbn [scheduled_messages set_messages channels
    channels_file messages_file jobs next_handle].
  unfold assign. rewrite get_set_same, set_set. reflexivity.
Qed.

Lemma schedule_message_success u ctx st a0 a1 a2 rest delay :
  effective_user u = YOUR_USER_ID ->
  args ctx = a0 :: a1 :: a2 :: rest ->
  int_of_str a1 = Some delay ->
  mem (lower a0) (channels st) = true ->
  0 < delay ->
  len (join_space (a2 :: rest)) <= 4000 ->
  datetime_min <= now ctx 0%nat ->
  now ctx 0%nat + delay * 60 * 1000000 <= datetime_max ->
  let id := new_message_id (now ctx 1%nat) in
  let due := now ctx 0%nat + delay * 60 * 1000000 in
  let txt := join_space (a2 :: rest) in
  schedule_message u ctx st
  = reply u (MessageScheduled txt (lower a0) due id)
      (scheduled st id
         (mkMsg id (effective_chat u) txt due (lower a0) None true)
         (delay * 60)).
Proof.
  intros Hu Hargs Hint Hmem Hd Hl Hlo Hhi id due txt.
  rewrite (schedule_message_cases u ctx st _ _ _ _ _ Hu Hargs Hint).
  rewrite Hmem. simpl negb. cbv iota.
  destruct (Z.leb_spec delay 0); [lia|].
  destruct (Z.gtb_spec (len (join_space (a2 :: rest))) 4000); [lia|].
  rewrite timedelta_minutes_small by lia.
  rewrite datetime_add_in_range by lia.
  reflexivity.
Qed.

Lemma state_reply u x st : state (reply u x st) = st.
Proof. unfold reply. now destruct (message u). Qed.

Lemma calls_reply u x st :
  calls (reply u x st) = if message u then [reply_text x] else [].
Proof. unfold reply. now destruct (message u). Qed.

(** C5 (as amended). [/schedule] checks, in this order, that the channel is
    registered, that the delay is positive and that the text has at most
    4000 characters, and refuses with the reply of the first check that
    fails, leaving the state as it was.  When all three hold and the due
    time, the first clock reading plus the delay in minutes, is a
    representable [datetime], the delivery is created: it is stored under
    its id with that due time, active, for the requester's chat; its id
    occurs exactly once in [listPending]; the other deliveries are kept; one
    job is armed for it; and the store is written to the messages file. *)
Theorem schedule_message_creates_or_refuses :
  forall (u : Update) (ctx : Context) (st : State) (a0 a1 a2 : string)
         (rest : list string) (delay : Z),
    state_wf st ->
    effective_user u = YOUR_USER_ID ->
    args ctx = a0 :: a1 :: a2 :: rest ->
    int_of_str a1 = Some delay ->
    let name := lower a0 in
    let txt := join_space (a2 :: rest) in
    let r := schedule_message u ctx st in
    (mem name (channels st) = false ->
       state r = st
       /\ calls r = (if message u
                     then [reply_text (ScheduleChannelNotFound name)] else []))
    /\ (mem name (channels st) = true -> delay <= 0 ->
          state r = st
          /\ calls r = (if message u
                        then [reply_text PositiveTimeRequired] else []))
    /\ (mem name (channels st) = true -> 0 < delay -> len txt > 4000 ->
          state r = st
          /\ calls r = (if message u then [reply_text MessageTooLong] else []))
    /\ (mem name (channels st) = true -> 0 < delay -> len txt <= 4000 ->
        datetime_min <= now ctx 0%nat ->
        now ctx 0%nat + delay * 60 * 1000000 <= datetime_max ->
          let id := new_message_id (now ctx 1%nat) in
          let due := now ctx 0%nat + delay * 60 * 1000000 in
          get id (scheduled_messages (state r))
          = Some (mkMsg id (effective_chat u) txt due name
                    (Some (next_handle st)) true)
          /\ count_occ string_dec (listPending (state r)) id = 1%nat
          /\ (forall k, k <> id ->
                get k (scheduled_messages (state r))
                = get k (scheduled_messages st))
          /\ jobs (state r)
             = (jobs st ++ [mkJob (next_handle st) id id (delay * 60)])%list
          /\ channels (state r) = channels st
          /\ messages_file (state r)
             = Holds (JObj (messages_to_save (scheduled_messages (state r))))
          /\ calls r = (if message u
                        then [reply_text (MessageScheduled txt name due id)]
                        else [])).
Proof.
  intros u ctx st a0 a1 a2 rest delay [Hc Hm] Hu Hargs Hint name txt r.
  subst r.
  pose proof (schedule_message_cases u ctx st _ _ _ _ _ Hu Hargs Hint) as Hcases.
  cbv zeta in Hcases. fold name in Hcases. fold txt in Hcases.
  split; [|split; [|split]].
  - intros Hmem. rewrite Hcases, Hmem. simpl.
    now rewrite state_reply, calls_reply.
  - intros Hmem Hd. rewrite Hcases, Hmem. simpl.
    destruct (Z.leb_spec delay 0); [|lia].
    now rewrite state_reply, calls_reply.
  - intros Hmem Hd Hl. rewrite Hcases, Hmem. simpl.
    destruct (Z.leb_spec delay 0); [lia|].
    destruct (Z.gtb_spec (len txt) 4000); [|lia].
    now rewrite state_reply, calls_reply.
  - intros Hmem Hd Hl Hlo Hhi id due.
    rewrite (schedule_message_success u ctx st _ _ _ _ _ Hu Hargs Hint Hmem Hd
               Hl Hlo Hhi).
    fold id. fold due. fold txt. fold name.
    rewrite state_reply, calls_reply. unfold scheduled. simpl.
    repeat split; auto.
    + apply get_set_same.
    + unfold listPending. simpl. now apply count_keys_set.
    + intros k Hk. now apply get_set_other.
Qed.

(** ** Persistence *)

Lemma keys_reloaded (d : dict ScheduledMessage) : keys (map reloaded d) = keys d.
Proof. unfold keys. rewrite map_map. reflexivity. Qed.

Lemma persisted_reloaded (d : dict ScheduledMessage) :
  map persisted (map reloaded d) = map persisted d.
Proof. rewrite map_map. reflexivity. Qed.

Lemma as_str_dict_of_channels (c : dict string) :
  as_str_dict (map (fun kv => (fst kv, JStr (snd kv))) c) = Some c.
Proof.
  induction c as [|[k v] r IH]; simpl; [reflexivity | now rewrite IH].
Qed.

Lemma NoDup_app_cons_shift (a : list string) k r :
  NoDup (a ++ k :: r)%list -> NoDup ((a ++ [k]) ++ r)%list /\ ~ In k a.
Proof.
  intros H. split.
  - now rewrite <- app_assoc.
  - apply NoDup_remove_2 in H. intros Hin. apply H. apply in_or_app. now left.
Qed.

Lemma messages_to_save_from (d : dict ScheduledMessage) (out : dict json) :
  NoDup (keys out ++ keys d)%list ->
  fold_left (fun acc kv => set (fst kv) (json_of_message (snd kv)) acc) d out
  = (out ++ map (fun kv => (fst kv, json_of_message (snd kv))) d)%list.
Proof.
  revert out. induction d as [|[k m] r IH]; intros out Hnd; simpl.
  - now rewrite app_nil_r.
  - simpl in Hnd. destruct (NoDup_app_cons_shift _ _ _ Hnd) as [Hnd' Hk].
    rewrite set_fresh by assumption.
    rewrite IH.
    + now rewrite <- app_assoc.
    + unfold keys in *. now rewrite map_app.
Qed.

Lemma messages_to_save_wf (d : dict ScheduledMessage) :
  dict_wf d ->
  messages_to_save d = map (fun kv => (fst kv, json_of_message (snd kv))) d.
Proof.
  intros Hwf. unfold messages_to_save.
  now rewrite (messages_to_save_from d []).
Qed.

Lemma message_of_json_of_message k m :
  fromisoformat (isoformat (scheduled_time m)) = Some (scheduled_time m) ->
  message_of_json k (json_of_message m) = Some (snd (reloaded (k, m))).
Proof.
  intros H. unfold message_of_json, json_of_message. simpl. now rewrite H.
Qed.

Lemma times_read_back_tail kv (r : dict ScheduledMessage) :
  times_read_back (kv :: r) ->
  fromisoformat (isoformat (scheduled_time (snd kv)))
  = Some (scheduled_time (snd kv))
  /\ times_read_back r.
Proof.
  intros H. destruct kv as [k m]. split.
  - apply (H k m). now left.
  - intros id m' Hin. apply (H id m'). now right.
Qed.

(** Loading into an empty or unrelated store: the deliveries are appended. *)
Lemma load_messages_fresh (d acc : dict ScheduledMessage) :
  NoDup (keys acc ++ keys d)%list ->
  times_read_back d ->
  load_messages (map (fun kv => (fst kv, json_of_message (snd kv))) d) acc
  = Some (acc ++ map reloaded d)%list.
Proof.
  revert acc. induction d as [|[k m] r IH]; intros acc Hnd Ht; simpl.
  - now rewrite app_nil_r.
  - destruct (times_read_back_tail _ _ Ht) as [Hm Hr]. simpl in Hm.
    rewrite (message_of_json_of_message k m Hm). simpl.
    simpl in Hnd. destruct (NoDup_app_cons_shift _ _ _ Hnd) as [Hnd' Hk].
    rewrite set_fresh by assumption.
    rewrite IH; [now rewrite <- app_assoc | | assumption].
    unfold keys in *. now rewrite map_app.
Qed.

(** Loading over the store that was saved: the deliveries are replaced in
    place. *)
Lemma load_messages_over (d2 d1 : dict ScheduledMessage) :
  NoDup (keys (d1 ++ d2)%list) ->
  times_read_back d2 ->
  load_messages (map (fun kv => (fst kv, json_of_message (snd kv))) d2)
    (map reloaded d1 ++ d2)%list
  = Some (map reloaded (d1 ++ d2)%list).
Proof.
  revert d1. induction d2 as [|[k m] r IH]; intros d1 Hnd Ht; simpl.
  - now rewrite !app_nil_r.
  - destruct (times_read_back_tail _ _ Ht) as [Hm Hr]. simpl in Hm.
    rewrite (message_of_json_of_message k m Hm). simpl.
    unfold keys in Hnd. rewrite map_app in Hnd. simpl in Hnd.
    destruct (NoDup_app_cons_shift _ _ _ Hnd) as [Hnd' Hk].
    rewrite set_app_fresh by (now rewrite keys_reloaded).
    simpl. rewrite String.eqb_refl.
    specialize (IH (d1 ++ [(k, m)])%list).
    rewrite map_app in IH. simpl in IH. rewrite <- !app_assoc in IH.
    simpl in IH. apply IH; [|assumption].
    unfold keys. rewrite !map_app. simpl. now rewrite <- app_assoc in Hnd'.
Qed.

(** The state in which the process comes back after [save_data] in [st]. *)
Lemma restart_after_save st :
  state_wf st ->
  times_read_back (scheduled_messages st) ->
  restart (save_data st)
  = mkState (channels st) (map reloaded (scheduled_messages st))
      (channels_file (save_data st)) (messages_file (save_data st)) [] 0.
Proof.
  intros [Hc Hm] Ht. unfold restart, main, load_data, fresh. simpl.
  rewrite as_str_dict_of_channels, (messages_to_save_wf _ Hm).
  rewrite (load_messages_fresh _ [] Hm Ht). reflexivity.
Qed.

Lemma load_after_save st :
  state_wf st ->
  times_read_back (scheduled_messages st) ->
  load_data (save_data st)
  = mkState (channels st) (map reloaded (scheduled_messages st))
      (channels_file (save_data st)) (messages_file (save_data st))
      (jobs st) (next_handle st).
Proof.
  intros [Hc Hm] Ht.
  unfold load_data, save_data, set_files, set_messages, set_channels. simpl.
  rewrite as_str_dict_of_channels, (messages_to_save_wf _ Hm).
  pose proof (load_messages_over (scheduled_messages st) [] Hm Ht) as Hl.
  simpl in Hl. rewrite Hl. reflexivity.
Qed.

(** C8. What [save_data] writes, [load_data] reads back: after a restart,
    and also when [load_data] runs in the process that saved, the registry
    is the one that was saved and the store holds the same deliveries in the
    same order, each with the id, requester, text, due time, channel and
    active flag it had.  The file system is taken to keep what is written;
    the due times are taken to survive [isoformat] and [fromisoformat]. *)
Theorem save_then_load_round_trip :
  forall st : State,
    state_wf st ->
    times_read_back (scheduled_messages st) ->
    let st' := restart (save_data st) in
    let st'' := load_data (save_data st) in
    channels st' = channels st
    /\ map persisted (scheduled_messages st')
       = map persisted (scheduled_messages st)
    /\ listPending st' = listPending st
    /\ channels st'' = channels st
    /\ map persisted (scheduled_messages st'')
       = map persisted (scheduled_messages st).
Proof.
  intros st Hwf Ht st' st''. subst st' st''.
  rewrite (restart_after_save st Hwf Ht), (load_after_save st Hwf Ht).
  unfold listPending. simpl.
  rewrite persisted_reloaded, keys_reloaded. repeat split; reflexivity.
Qed.

(** ** Restart *)

Lemma In_set {V} k v k' v' (d : dict V) :
  In (k', v') (set k v d) -> (k', v') = (k, v) \/ In (k', v') d.
Proof.
  induction d as [|[k0 v0] r IH]; simpl.
  - intros [E|[]]. now left.
  - destruct (String.eqb_spec k k0) as [->|Hne]; simpl.
    + intros [E|H]; [now left | right; now right].
    + intros [E|H]; [right; now left|].
      destruct (IH H) as [E|Hin]; [now left | right; now right].
Qed.

Lemma message_of_json_no_job k j m :
  message_of_json k j = Some m -> job m = None.
Proof.
  unfold message_of_json.
  repeat match goal with
         | |- context [match ?x with _ => _ end] => destruct x; try discriminate
         end.
  now intros [= <-].
Qed.

Lemma load_messages_no_job items acc d :
  (forall k m, In (k, m) acc -> job m = None) ->
  load_messages items acc = Some d ->
  forall k m, In (k, m) d -> job m = None.
Proof.
  revert acc. induction items as [|[k0 j] r IH]; intros acc Hacc; simpl.
  - intros [= <-]. exact Hacc.
  - destruct (message_of_json k0 j) as [m0|] eqn:E; [|discriminate].
    apply IH. intros k m Hin.
    destruct (In_set _ _ _ _ _ Hin) as [[= -> ->]|H].
    + exact (message_of_json_no_job _ _ _ E).
    + exact (Hacc k m H).
Qed.

(** Whatever the files hold, [main] arms nothing: the queue is empty and no
    loaded delivery has a job. *)
Lemma main_arms_nothing cf mf :
  jobs (main cf mf) = []
  /\ forall id m,
       get id (scheduled_messages (main cf mf)) = Some m -> job m = None.
Proof.
  split; [reflexivity|].
  intros id m Hget. apply get_In in Hget. revert Hget.
  unfold main, load_data, fresh. simpl.
  destruct mf as [| |j]; simpl; try tauto.
  destruct j; simpl; try tauto.
  destruct (load_messages o []) as [d|] eqn:E; simpl; [|tauto].
  intros Hin. eapply load_messages_no_job; [|exact E|exact Hin].
  simpl. tauto.
Qed.

Lemma fire_empty_queue tr h st : jobs st = [] -> fire tr h st = done st [].
Proof. intros H. unfold fire. now rewrite H. Qed.

(** C1 (as amended). Restarting the process brings every delivery of the
    messages file back into the store, with its id, requester, text, due
    time, channel and active flag, but arms no timer for any of them: the
    job queue of the restarted process is empty and the reloaded deliveries
    hold no job, so that no job callback runs for them, whenever they were
    due. *)
Theorem restart_reloads_but_arms_no_timer :
  forall st : State,
    state_wf st ->
    times_read_back (scheduled_messages st) ->
    let st' := restart (save_data st) in
    map persisted (scheduled_messages st')
    = map persisted (scheduled_messages st)
    /\ jobs st' = []
    /\ (forall id m, get id (scheduled_messages st') = Some m -> job m = None)
    /\ (forall tr h, fire tr h st' = mkResult st' [] None).
Proof.
  intros st Hwf Ht st'.
  assert (E : st' = main (channels_file (save_data st))
                      (messages_file (save_data st))) by reflexivity.
  destruct (main_arms_nothing (channels_file (save_data st))
              (messages_file (save_data st))) as [Hj Hn].
  rewrite <- E in Hj, Hn.
  split; [|split; [|split]].
  - subst st'. rewrite (restart_after_save st Hwf Ht). simpl.
    apply persisted_reloaded.
  - exact Hj.
  - exact Hn.
  - intros tr h. now apply fire_empty_queue.
Qed.

(** ** Ids *)

Lemma str_of_int_inj a b : str_of_int a = str_of_int b -> a = b.
Proof.
  unfold str_of_int. intros H.
  apply (f_equal NilEmpty.int_of_string) in H.
  rewrite !NilEmpty.isi in H. injection H as H.
  apply (f_equal Z.of_int) in H. now rewrite !DecimalZ.of_to in H.
Qed.

Lemma new_message_id_inj t1 t2 :
  new_message_id t1 = new_message_id t2 -> int_timestamp t1 = int_timestamp t2.
Proof.
  unfold new_message_id. simpl. intros H. injection H as H.
  now apply str_of_int_inj.
Qed.


(** In the store: a delivery created in one clock second is still there,
    as it was, after a delivery has been created in another. *)
Lemma create_in_another_second_keeps u ctx st a0 a1 a2 rest delay t0 m :
  effective_user u = YOUR_USER_ID ->
  args ctx = a0 :: a1 :: a2 :: rest ->
  int_of_str a1 = Some delay ->
  mem (lower a0) (channels st) = true ->
  0 < delay ->
  len (join_space (a2 :: rest)) <= 4000 ->
  datetime_min <= now ctx 0%nat ->
  now ctx 0%nat + delay * 60 * 1000000 <= datetime_max ->
  get (new_message_id t0) (scheduled_messages st) = Some m ->
  int_timestamp t0 <> int_timestamp (now ctx 1%nat) ->
  let st' := state (schedule_message u ctx st) in
  get (new_message_id t0) (scheduled_messages st') = Some m
  /\ In (new_message_id t0) (listPending st')
  /\ In (new_message_id (now ctx 1%nat)) (listPending st').
Proof.
  intros Hu Hargs Hint Hmem Hd Hl Hlo Hhi Hget Hne st'. subst st'.
  rewrite (schedule_message_success u ctx st _ _ _ _ _ Hu Hargs Hint Hmem Hd
             Hl Hlo Hhi).
  rewrite state_reply. unfold scheduled, listPending. simpl.
  assert (Hk : new_message_id t0 <> new_message_id (now ctx 1%nat))
    by (intros E; apply Hne; now apply new_message_id_inj).
  assert (Hkeep : get (new_message_id t0)
                    (set (new_message_id (now ctx 1%nat))
                       (with_job (next_handle st)
                          (mkMsg (new_message_id (now ctx 1%nat))
                             (effective_chat u) (join_space (a2 :: rest))
                             (now ctx 0%nat + delay * 60 * 1000000)
                             (lower a0) None true))
                       (scheduled_messages st)) = Some m)
    by (rewrite get_set_other by exact Hk; exact Hget).
  split; [exact Hkeep|]. split.
  - apply get_In_keys. rewrite Hkeep. discriminate.
  - apply get_In_keys. rewrite get_set_same. discriminate.
Qed.

(** ** The invariant *)

Lemma assign_wf {V} k (f : V -> V) (d : dict V) :
  dict_wf d -> dict_wf (assign k f d).
Proof. intros H. unfold assign. destruct (get k d); auto using set_wf. Qed.

Lemma reply_wf u x st : state_wf st -> state_wf (state (reply u x st)).
Proof. now rewrite state_reply. Qed.

Lemma dispatch_wf h u ctx st : state_wf st -> state_wf (state (dispatch h u ctx st)).
Proof.
  intros Hwf. pose proof Hwf as [Hc Hm].
  destruct h; simpl;
    unfold start, help_command, add_channel, list_channels, delete_channel,
      schedule_message, list_scheduled_messages, button_handler;
    unfold schedule_removal;
    destruct (check_authorized u) as [[|] cs]; simpl; auto;
    repeat match goal with
           | |- state_wf (state (reply _ _ _)) => apply reply_wf
           | |- context [match job ?m with _ => _ end] => destruct (job m)
           | |- context [match find ?f ?l with _ => _ end] =>
               destruct (find f l)
           | |- state_wf (state (match ?x with _ => _ end)) => destruct x
           | |- state_wf (state (if ?x then _ else _)) => destruct x
           end;
    simpl; auto;
    split; simpl; auto using set_wf, del_wf, assign_wf.
Qed.

Lemma fire_wf tr h st : state_wf st -> state_wf (state (fire tr h st)).
Proof.
  intros [Hc Hm]. unfold fire.
  destruct (find _ (jobs st)); [|now split].
  unfold send_scheduled_message. simpl.
  destruct (get (job_data j) (scheduled_messages st)); [|now split].
  destruct (if active s then _ else _) as [cs [e|]]; simpl; [now split|].
  destruct (mem (job_data j) (scheduled_messages st)); simpl;
    split; simpl; auto using del_wf.
Qed.

(** No event of a run breaks [state_wf]. *)
Lemma run_wf st es : state_wf st -> state_wf (run st es).
Proof.
  revert st. induction es as [|e es IH]; intros st Hwf; [exact Hwf|].
  simpl. apply IH. destruct e; simpl; auto using dispatch_wf, fire_wf.
Qed.

Lemma restart_wf st :
  state_wf st ->
  times_read_back (scheduled_messages st) ->
  state_wf (restart (save_data st)).
Proof.
  intros Hwf Ht. rewrite (restart_after_save st Hwf Ht).
  destruct Hwf as [Hc Hm]. split; simpl; [exact Hc|].
  unfold dict_wf. now rewrite keys_reloaded.
Qed.

(** * Further properties of the handlers *)

(** ** More on dictionaries *)

Lemma del_app_fresh {V} k (a b : dict V) :
  ~ In k (keys a) -> del k (a ++ b)%list = (a ++ del k b)%list.
Proof.
  induction a as [|[k' v'] r IH]; simpl; intros Hn; [reflexivity|].
  destruct (String.eqb_spec k k') as [->|Hne]; [tauto|].
  f_equal. apply IH. tauto.
Qed.

Lemma del_set_fresh {V} k v (d : dict V) :
  ~ In k (keys d) -> del k (set k v d) = d.
Proof.
  intros Hn. rewrite (set_fresh _ _ _ Hn), (del_app_fresh _ _ _ Hn). simpl.
  rewrite String.eqb_refl. apply app_nil_r.
Qed.

Lemma get_del_some {V} k id (m : V) (d : dict V) :
  dict_wf d -> get k (del id d) = Some m -> get k d = Some m /\ k <> id.
Proof.
  intros Hwf H. destruct (string_dec k id) as [->|Hne].
  - rewrite get_del_same in H by assumption. discriminate.
  - rewrite get_del_other in H by assumption. now split.
Qed.

Lemma mem_set_keeps {V} k k' v (d : dict V) :
  mem k d = true -> mem k (set k' v d) = true.
Proof.
  unfold mem. destruct (string_dec k k') as [->|Hne].
  - now rewrite get_set_same.
  - now rewrite get_set_other.
Qed.

Lemma mem_del_other {V} k k' (d : dict V) :
  k <> k' -> mem k (del k' d) = mem k d.
Proof. intros H. unfold mem. now rewrite get_del_other. Qed.

(** ** The registry *)

Lemma add_channel_cases u ctx st :
  effective_user u = YOUR_USER_ID ->
  add_channel u ctx st
  = match args ctx with
    | channel_id :: a1 :: _ =>
        if negb (startswith "-100" channel_id) then reply u InvalidChannelId st
        else if mem (lower a1) (channels st)
        then reply u (ChannelNameExists (lower a1)) st
        else reply u (ChannelAdded (lower a1) channel_id)
               (save_data
                  (set_channels (set (lower a1) channel_id (channels st)) st))
    | _ => reply u UsageAddChannel st
    end.
Proof.
  intros Hu. unfold add_channel. rewrite (check_authorized_yes u Hu).
  reflexivity.
Qed.

(** X1. [/addchannel <id> <name>] with an id that starts with [-100] and a
    name whose lowered form is not registered puts the id under the lowered
    name, after the channels already there, which are kept; the store and the
    queue are unchanged, the new registry is written to its file and the
    reply confirms name and id. *)
Theorem add_channel_registers :
  forall (u : Update) (ctx : Context) (st : State) (channel_id a1 : string)
         (rest : list string),
    effective_user u = YOUR_USER_ID ->
    args ctx = channel_id :: a1 :: rest ->
    startswith "-100" channel_id = true ->
    mem (lower a1) (channels st) = false ->
    let r := add_channel u ctx st in
    channels (state r) = (channels st ++ [(lower a1, channel_id)])%list
    /\ get (lower a1) (channels (state r)) = Some channel_id
    /\ (forall k v, get k (channels st) = Some v ->
                    get k (channels (state r)) = Some v)
    /\ scheduled_messages (state r) = scheduled_messages st
    /\ jobs (state r) = jobs st
    /\ channels_file (state r) = Holds (json_of_channels (channels (state r)))
    /\ calls r = (if message u
                  then [reply_text (ChannelAdded (lower a1) channel_id)]
                  else []).
Proof.
  intros u ctx st channel_id a1 rest Hu Hargs Hid Hnew r. subst r.
  rewrite (add_channel_cases u ctx st Hu), Hargs, Hid, Hnew. simpl negb.
  cbv iota. rewrite state_reply, calls_reply. simpl.
  assert (Hfresh : ~ In (lower a1) (keys (channels st)))
    by now apply mem_false_keys.
  repeat split; auto.
  - now apply set_fresh.
  - apply get_set_same.
  - intros k v Hk. rewrite get_set_other; [exact Hk|].
    intros ->. apply Hfresh. apply get_In_keys. congruence.
Qed.

(** X2. [/addchannel] refuses, with the state as it was: fewer than two
    words (usage), an id that does not start with [-100], and a name whose
    lowered form is already registered, whatever the id. *)
Theorem add_channel_refuses :
  forall (u : Update) (ctx : Context) (st : State),
    effective_user u = YOUR_USER_ID ->
    let r := add_channel u ctx st in
    ((List.length (args ctx) < 2)%nat ->
       state r = st
       /\ calls r = (if message u then [reply_text UsageAddChannel] else []))
    /\ (forall channel_id a1 rest,
          args ctx = channel_id :: a1 :: rest ->
          startswith "-100" channel_id = false ->
          state r = st
          /\ calls r = (if message u then [reply_text InvalidChannelId] else []))
    /\ (forall channel_id a1 rest,
          args ctx = channel_id :: a1 :: rest ->
          startswith "-100" channel_id = true ->
          mem (lower a1) (channels st) = true ->
          state r = st
          /\ calls r = (if message u
                        then [reply_text (ChannelNameExists (lower a1))]
                        else [])).
Proof.
  intros u ctx st Hu r. subst r. rewrite (add_channel_cases u ctx st Hu).
  split; [|split].
  - intros Hlen. destruct (args ctx) as [|x [|y l]]; simpl in Hlen;
      try lia; now rewrite state_reply, calls_reply.
  - intros channel_id a1 rest -> ->. simpl.
    now rewrite state_reply, calls_reply.
  - intros channel_id a1 rest -> -> ->. simpl.
    now rewrite state_reply, calls_reply.
Qed.

(** X3. Whoever sends it and whatever it says, [/addchannel] never changes
    or removes a channel that is registered. *)
Theorem add_channel_keeps_registered :
  forall (u : Update) (ctx : Context) (st : State) (k v : string),
    get k (channels st) = Some v ->
    get k (channels (state (add_channel u ctx st))) = Some v.
Proof.
  intros u ctx st k v Hk. unfold add_channel.
  destruct (check_authorized u) as [[|] cs]; cbn [negb]; [|exact Hk].
  destruct (args ctx) as [|channel_id [|a1 rest]];
    try (rewrite state_reply; exact Hk).
  destruct (negb (startswith "-100" channel_id));
    [rewrite state_reply; exact Hk|].
  destruct (mem (lower a1) (channels st)) eqn:Hmem;
    rewrite state_reply; [exact Hk|]. simpl.
  rewrite get_set_other; [exact Hk|].
  intros ->. unfold mem in Hmem. now rewrite Hk in Hmem.
Qed.

Lemma delete_channel_cases u ctx st :
  effective_user u = YOUR_USER_ID ->
  delete_channel u ctx st
  = match args ctx with
    | [] => reply u UsageDeleteChannel st
    | a0 :: _ =>
        if negb (mem (lower a0) (channels st))
        then reply u (ChannelNotFound (lower a0)) st
        else if channel_has_messages (lower a0) (scheduled_messages st)
        then reply u (ChannelHasMessages (lower a0)) st
        else reply u (ChannelDeleted (lower a0))
               (save_data (set_channels (del (lower a0) (channels st)) st))
    end.
Proof.
  intros Hu. unfold delete_channel. rewrite (check_authorized_yes u Hu).
  reflexivity.
Qed.

(** X4. [/addchannel] of a new name followed by [/deletechannel] of the
    same word, while no delivery names the channel, gives back the registry
    as it was, order included, and leaves the store alone. *)
Theorem add_then_delete_channel_restores :
  forall (u u' : Update) (ctx ctx' : Context) (st : State)
         (channel_id a1 : string) (rest rest' : list string),
    state_wf st ->
    effective_user u = YOUR_USER_ID ->
    effective_user u' = YOUR_USER_ID ->
    args ctx = channel_id :: a1 :: rest ->
    args ctx' = a1 :: rest' ->
    startswith "-100" channel_id = true ->
    mem (lower a1) (channels st) = false ->
    (forall id m, get id (scheduled_messages st) = Some m ->
                  channel m <> lower a1) ->
    let st1 := state (add_channel u ctx st) in
    let st2 := state (delete_channel u' ctx' st1) in
    channels st2 = channels st
    /\ scheduled_messages st2 = scheduled_messages st
    /\ channels_file st2 = Holds (json_of_channels (channels st)).
Proof.
  intros u u' ctx ctx' st channel_id a1 rest rest' [Hc Hm] Hu Hu' Hargs Hargs'
    Hid Hnew Hfree st1 st2.
  assert (E1 : st1 = save_data
                       (set_channels
                          (set (lower a1) channel_id (channels st)) st)).
  { subst st1. rewrite (add_channel_cases u ctx st Hu), Hargs, Hid, Hnew.
    simpl. apply state_reply. }
  assert (Hno : channel_has_messages (lower a1) (scheduled_messages st1)
                = false).
  { rewrite E1. simpl.
    destruct (channel_has_messages (lower a1) (scheduled_messages st)) eqn:E;
      [|reflexivity].
    apply (channel_has_messages_iff _ _ Hm) in E.
    destruct E as (id & m & Hget & Hch). now destruct (Hfree id m Hget). }
  assert (Hin : mem (lower a1) (channels st1) = true).
  { rewrite E1. simpl. unfold mem. now rewrite get_set_same. }
  subst st2. rewrite (delete_channel_cases u' ctx' st1 Hu'), Hargs', Hin, Hno.
  simpl. rewrite state_reply. rewrite E1. simpl.
  rewrite del_set_fresh by now apply mem_false_keys. auto.
Qed.

(** X5. [/deletechannel] without a word replies with the usage, and with a
    word whose lowered form is not registered replies that the channel is
    not found, even when stored deliveries name it; in both cases the state
    is as it was. *)
Theorem delete_channel_refuses_unknown :
  forall (u : Update) (ctx : Context) (st : State),
    effective_user u = YOUR_USER_ID ->
    let r := delete_channel u ctx st in
    (args ctx = [] ->
       state r = st
       /\ calls r = (if message u then [reply_text UsageDeleteChannel] else []))
    /\ (forall a0 rest,
          args ctx = a0 :: rest ->
          mem (lower a0) (channels st) = false ->
          state r = st
          /\ calls r = (if message u
                        then [reply_text (ChannelNotFound (lower a0))]
                        else [])).
Proof.
  intros u ctx st Hu r. subst r. rewrite (delete_channel_cases u ctx st Hu).
  split.
  - intros ->. now rewrite state_reply, calls_reply.
  - intros a0 rest -> ->. simpl. now rewrite state_reply, calls_reply.
Qed.

(** ** More on the job callback *)

Lemma send_active u_tr id m channel_id st :
  get id (scheduled_messages st) = Some m ->
  active m = true ->
  get (channel m) (channels st) = Some channel_id ->
  send_scheduled_message u_tr id st
  = match snd (try_send u_tr channel_id m) with
    | Some e => mkResult st (fst (try_send u_tr channel_id m)) (Some e)
    | None =>
        done (save_data (set_messages (del id (scheduled_messages st)) st))
          (fst (try_send u_tr channel_id m))
    end.
Proof.
  intros Hget Hact Hch. unfold send_scheduled_message.
  assert (Hmem : mem id (scheduled_messages st) = true)
    by (unfold mem; now rewrite Hget).
  rewrite Hget, Hact, Hch, Hmem.
  destruct (try_send u_tr channel_id m) as [cs [e|]]; reflexivity.
Qed.

(** X6. The job of an active delivery whose channel is registered, when
    Telegram accepts both messages: the text goes to the identifier of the
    channel, then the notice with channel name and text goes to the
    requester, nothing else is sent, and the delivery is removed from the
    store and from the messages file. *)
Theorem send_delivers_and_retires :
  forall (tr : Transport) (st : State) (id channel_id : string)
         (m : ScheduledMessage),
    state_wf st ->
    get id (scheduled_messages st) = Some m ->
    active m = true ->
    get (channel m) (channels st) = Some channel_id ->
    tr (ChannelId channel_id) (Plain (text m)) = None ->
    tr (ChatId (chat_id m)) (SentNotice (channel m) (text m)) = None ->
    let r := send_scheduled_message tr id st in
    calls r = [send_message (ChannelId channel_id) (Plain (text m));
               send_message (ChatId (chat_id m))
                 (SentNotice (channel m) (text m))]
    /\ raised r = None
    /\ get id (scheduled_messages (state r)) = None
    /\ messages_file (state r)
       = Holds (JObj (messages_to_save (del id (scheduled_messages st)))).
Proof.
  intros tr st id channel_id m [Hc Hm] Hget Hact Hch H1 H2 r. subst r.
  rewrite (send_active tr id m channel_id st Hget Hact Hch).
  unfold try_send. rewrite H1, H2. simpl.
  repeat split. now apply get_del_same.
Qed.

(** X7. When a send of the job fails, to the channel or, after it, to the
    requester, the requester is sent the error with the detail of the
    failure, and if that message goes through the delivery is removed all
    the same: a failed send is not tried again. *)
Theorem send_failure_is_reported_and_retired :
  forall (tr : Transport) (st : State) (id channel_id e : string)
         (m : ScheduledMessage),
    state_wf st ->
    get id (scheduled_messages st) = Some m ->
    active m = true ->
    get (channel m) (channels st) = Some channel_id ->
    tr (ChatId (chat_id m)) (ErrorNotice (channel m) e) = None ->
    let r := send_scheduled_message tr id st in
    let to_channel := send_message (ChannelId channel_id) (Plain (text m)) in
    let report :=
      send_message (ChatId (chat_id m)) (ErrorNotice (channel m) e) in
    (tr (ChannelId channel_id) (Plain (text m)) = Some e ->
       calls r = [to_channel; report]
       /\ raised r = None
       /\ get id (scheduled_messages (state r)) = None)
    /\ (tr (ChannelId channel_id) (Plain (text m)) = None ->
        tr (ChatId (chat_id m)) (SentNotice (channel m) (text m)) = Some e ->
          calls r = [to_channel;
                     send_message (ChatId (chat_id m))
                       (SentNotice (channel m) (text m));
                     report]
          /\ raised r = None
          /\ get id (scheduled_messages (state r)) = None).
Proof.
  intros tr st id channel_id e m [Hc Hm] Hget Hact Hch Hrep r to_channel report.
  subst r to_channel report.
  rewrite (send_active tr id m channel_id st Hget Hact Hch).
  unfold try_send. split.
  - intros H1. rewrite H1, Hrep. simpl. repeat split. now apply get_del_same.
  - intros H1 H2. rewrite H1, H2, Hrep. simpl. repeat split.
    now apply get_del_same.
Qed.

Lemma find_removed h (l : list Job) :
  find (fun j => Nat.eqb (job_handle j) h)
    (filter (fun j => negb (Nat.eqb (job_handle j) h)) l) = None.
Proof.
  induction l as [|j l IH]; simpl; [reflexivity|].
  destruct (Nat.eqb (job_handle j) h) eqn:E; simpl; [exact IH|].
  now rewrite E.
Qed.

Lemma send_keeps_queue tr id st :
  jobs (state (send_scheduled_message tr id st)) = jobs st
  /\ next_handle (state (send_scheduled_message tr id st)) = next_handle st
  /\ channels (state (send_scheduled_message tr id st)) = channels st.
Proof.
  unfold send_scheduled_message.
  destruct (get id (scheduled_messages st)) as [m|]; [|now repeat split].
  destruct (if active m then _ else _) as [cs [e|]]; [now repeat split|].
  destruct (mem id (scheduled_messages st)); now repeat split.
Qed.

(** X8. When the send to the channel fails and the error message to the
    requester fails as well, the exception of the latter leaves the
    callback before its clean-up: the job is gone from the queue, and the
    delivery stays in the store, with registry and files as they were. *)
Theorem double_failure_leaves_delivery_stored :
  forall (tr : Transport) (st : State) (h : nat) (j : Job)
         (channel_id e e' : string) (m : ScheduledMessage),
    find (fun j => Nat.eqb (job_handle j) h) (jobs st) = Some j ->
    get (job_data j) (scheduled_messages st) = Some m ->
    active m = true ->
    get (channel m) (channels st) = Some channel_id ->
    tr (ChannelId channel_id) (Plain (text m)) = Some e ->
    tr (ChatId (chat_id m)) (ErrorNotice (channel m) e) = Some e' ->
    let r := fire tr h st in
    raised r = Some (SendError e')
    /\ untouched st (state r)
    /\ get (job_data j) (scheduled_messages (state r)) = Some m
    /\ find (fun j => Nat.eqb (job_handle j) h) (jobs (state r)) = None.
Proof.
  intros tr st h j channel_id e e' m Hfind Hget Hact Hch H1 H2 r. subst r.
  unfold fire. rewrite Hfind.
  rewrite (send_active tr (job_data j) m channel_id (without_job h st)
             Hget Hact Hch).
  unfold try_send. rewrite H1, H2. simpl.
  repeat split; auto. apply find_removed.
Qed.

Lemma try_send_channel_once tr channel_id m :
  (List.length (filter to_a_channel (fst (try_send tr channel_id m))) <= 1)%nat
  /\ (List.length (fst (try_send tr channel_id m)) <= 3)%nat.
Proof.
  unfold try_send.
  destruct (tr (ChannelId channel_id) (Plain (text m))) as [e|].
  - destruct (tr (ChatId (chat_id m)) (ErrorNotice (channel m) e));
      simpl; lia.
  - destruct (tr (ChatId (chat_id m)) (SentNotice (channel m) (text m)))
      as [e|]; [|simpl; lia].
    destruct (tr (ChatId (chat_id m)) (ErrorNotice (channel m) e));
      simpl; lia.
Qed.

(** X9. Whatever the state and however Telegram answers, the job callback
    for an id touches nothing but the delivery stored under that id: the
    registry, the queue and every other delivery are as before, and it
    makes at most three calls, at most one of them to a channel. *)
Theorem send_touches_only_its_delivery :
  forall (tr : Transport) (id : string) (st : State),
    let r := send_scheduled_message tr id st in
    channels (state r) = channels st
    /\ jobs (state r) = jobs st
    /\ (forall k, k <> id ->
          get k (scheduled_messages (state r)) = get k (scheduled_messages st))
    /\ (List.length (filter to_a_channel (calls r)) <= 1)%nat
    /\ (List.length (calls r) <= 3)%nat.
Proof.
  intros tr id st r.
  destruct (send_keeps_queue tr id st) as (Hj & _ & Hc).
  split; [exact Hc|]. split; [exact Hj|]. subst r.
  unfold send_scheduled_message.
  destruct (get id (scheduled_messages st)) as [m|];
    [|simpl; repeat split; lia].
  assert (Hcs : forall cs : list Call * option Exn,
             cs = (if active m
                   then match get (channel m) (channels st) with
                        | Some channel_id => try_send tr channel_id m
                        | None => ([], None)
                        end
                   else ([], None)) ->
             (List.length (filter to_a_channel (fst cs)) <= 1)%nat
             /\ (List.length (fst cs) <= 3)%nat).
  { intros cs ->. destruct (active m); [|simpl; lia].
    destruct (get (channel m) (channels st)); [|simpl; lia].
    apply try_send_channel_once. }
  destruct (if active m then _ else _) as [cs [e|]];
    specialize (Hcs _ eq_refl); simpl in Hcs.
  - simpl. repeat split; tauto.
  - destruct (mem id (scheduled_messages st)); simpl; repeat split;
      try tauto.
    intros k Hk. now apply get_del_other.
Qed.

(** A job runs once: after the queue has run the job with a handle,
    running that handle again changes nothing and calls nothing, whatever
    the first run did. *)
Lemma fire_is_one_shot :
  forall (tr tr' : Transport) (h : nat) (st : State),
    let st' := state (fire tr h st) in
    fire tr' h st' = mkResult st' [] None.
Proof.
  intros tr tr' h st st'.
  assert (Hgone : find (fun j => Nat.eqb (job_handle j) h) (jobs st') = None).
  { subst st'. unfold fire.
    destruct (find (fun j => Nat.eqb (job_handle j) h) (jobs st)) as [j|] eqn:E.
    - destruct (send_keeps_queue tr (job_data j) (without_job h st))
        as (Hj & _). rewrite Hj. apply find_removed.
    - exact E. }
  unfold fire. now rewrite Hgone.
Qed.

(** ** More on the buttons *)

(** X10. The delete button for a stored delivery whose job is still in
    the queue, or that has no job (it was reloaded from the file), cancels
    the job, if any, and removes the delivery: the id is gone from the store
    and from the messages file, the other deliveries and the other jobs are
    kept, the registry is unchanged, and the query is answered and its
    message edited.  For a stored delivery whose job has already run, the
    removal of the job raises [JobLookupError] before the delivery is
    deleted: the query is answered and the state is as it was. *)
Theorem delete_button_cancels_and_removes :
  forall (u : Update) (ctx : Context) (st : State) (id : string)
         (m : ScheduledMessage),
    state_wf st ->
    effective_user u = YOUR_USER_ID ->
    callback_query u = Some ("delete_" ++ id) ->
    get id (scheduled_messages st) = Some m ->
    let r := button_handler u ctx st in
    ((forall h, job m = Some h ->
        find (fun j => Nat.eqb (job_handle j) h) (jobs st) <> None) ->
       get id (scheduled_messages (state r)) = None
       /\ (forall k, k <> id ->
             get k (scheduled_messages (state r))
             = get k (scheduled_messages st))
       /\ jobs (state r)
          = match job m with
            | Some h =>
                filter (fun j => negb (Nat.eqb (job_handle j) h)) (jobs st)
            | None => jobs st
            end
       /\ (forall h, job m = Some h ->
             find (fun j => Nat.eqb (job_handle j) h) (jobs (state r)) = None)
       /\ channels (state r) = channels st
       /\ messages_file (state r)
          = Holds (JObj (messages_to_save (del id (scheduled_messages st))))
       /\ calls r = [answer; edit_message_text MessageDeleted]
       /\ raised r = None)
    /\ (forall h, job m = Some h ->
          find (fun j => Nat.eqb (job_handle j) h) (jobs st) = None ->
          r = mkResult st [answer] (Some JobLookupError)).
Proof.
  intros u ctx st id m [Hc Hm] Hu Hq Hget r. subst r.
  rewrite (button_delete u ctx st id Hu Hq), Hget. split.
  - intros Hq'. destruct (job m) as [h|].
    + unfold schedule_removal.
      destruct (find (fun j => Nat.eqb (job_handle j) h) (jobs st)) eqn:E;
        [|now destruct (Hq' h eq_refl)].
      simpl. repeat split; auto using get_del_same, get_del_other.
      intros h' [= <-]. apply find_removed.
    + simpl. repeat split; auto using get_del_same, get_del_other.
      discriminate.
  - intros h -> Hgone. unfold schedule_removal. now rewrite Hgone.
Qed.

(** X11. A button whose delivery is not in the store, ON or OFF, and a
    button whose data starts with none of [enable_], [disable_] and
    [delete_], only answers the query: the state is as it was and the
    message is not edited. *)
Theorem button_without_delivery_only_answers :
  forall (u : Update) (ctx : Context) (st : State) (data : string),
    effective_user u = YOUR_USER_ID ->
    callback_query u = Some data ->
    (forall id, data = "enable_" ++ id \/ data = "disable_" ++ id ->
       get id (scheduled_messages st) = None ->
       button_handler u ctx st = mkResult st [answer] None)
    /\ (startswith "enable_" data = false ->
        startswith "disable_" data = false ->
        startswith "delete_" data = false ->
        button_handler u ctx st = mkResult st [answer] None).
Proof.
  intros u ctx st data Hu Hq. split.
  - intros id [->| ->] Habs.
    + now rewrite (button_enable u ctx st id Hu Hq), Habs.
    + now rewrite (button_disable u ctx st id Hu Hq), Habs.
  - intros H1 H2 H3. unfold button_handler.
    now rewrite (check_authorized_yes u Hu), Hq, H1, H2, H3.
Qed.

Lemma with_active_twice b m : with_active b (with_active b m) = with_active b m.
Proof. reflexivity. Qed.

Lemma toggle_state b id st :
  state
    (match get id (scheduled_messages st) with
     | Some m =>
         done (save_data
                 (set_messages
                    (assign id (with_active b) (scheduled_messages st)) st))
           [answer;
            edit_message_text
              (if b then MessageEnabled (text m) id
               else MessageDisabled (text m) id)]
     | None => done st [answer]
     end)
  = match get id (scheduled_messages st) with
    | Some m =>
        save_data
          (set_messages (set id (with_active b m) (scheduled_messages st)) st)
    | None => st
    end.
Proof.
  unfold assign. destruct (get id (scheduled_messages st)); reflexivity.
Qed.

Lemma toggled_twice b id st :
  let st1 := match get id (scheduled_messages st) with
             | Some m =>
                 save_data
                   (set_messages
                      (set id (with_active b m) (scheduled_messages st)) st)
             | None => st
             end in
  match get id (scheduled_messages st1) with
  | Some m =>
      save_data
        (set_messages (set id (with_active b m) (scheduled_messages st1)) st1)
  | None => st1
  end = st1.
Proof.
  intros st1. subst st1.
  destruct (get id (scheduled_messages st)) as [m|] eqn:Hget.
  - cbn [scheduled_messages save_data set_files set_messages].
    rewrite get_set_same, set_set. reflexivity.
  - now rewrite Hget.
Qed.

(** X12. Pressing OFF a second time, or ON a second time, changes nothing
    more: the state after the second press is the state after the first,
    files included. *)
Theorem toggle_twice_is_toggle_once :
  forall (u u' : Update) (ctx ctx' : Context) (st : State) (id : string),
    effective_user u = YOUR_USER_ID ->
    effective_user u' = YOUR_USER_ID ->
    (callback_query u = Some ("disable_" ++ id)
     /\ callback_query u' = Some ("disable_" ++ id))
    \/ (callback_query u = Some ("enable_" ++ id)
        /\ callback_query u' = Some ("enable_" ++ id)) ->
    let st1 := state (button_handler u ctx st) in
    state (button_handler u' ctx' st1) = st1.
Proof.
  intros u u' ctx ctx' st id Hu Hu' [[Hq Hq']|[Hq Hq']] st1; subst st1.
  - rewrite (button_disable u' ctx' _ id Hu' Hq').
    rewrite (button_disable u ctx st id Hu Hq).
    rewrite (toggle_state false id st).
    rewrite (toggle_state false id _).
    apply (toggled_twice false id st).
  - rewrite (button_enable u' ctx' _ id Hu' Hq').
    rewrite (button_enable u ctx st id Hu Hq).
    rewrite (toggle_state true id st).
    rewrite (toggle_state true id _).
    apply (toggled_twice true id st).
Qed.

(** ** More on creating a delivery *)

Lemma schedule_message_args u ctx st :
  effective_user u = YOUR_USER_ID ->
  (List.length (args ctx) < 3)%nat ->
  schedule_message u ctx st = reply u UsageSchedule st.
Proof.
  intros Hu Hlen. unfold schedule_message.
  rewrite (check_authorized_yes u Hu).
  destruct (args ctx) as [|a [|b [|c l]]]; simpl in Hlen; try lia; reflexivity.
Qed.

(** X13. [/schedule] with fewer than three words replies with the usage;
    with a second word that [int] rejects it replies that the number is not
    valid, and it does so before it looks at the channel, so also for a
    channel that is not registered.  The state is as it was. *)
Theorem schedule_message_rejects_bad_number :
  forall (u : Update) (ctx : Context) (st : State),
    effective_user u = YOUR_USER_ID ->
    let r := schedule_message u ctx st in
    ((List.length (args ctx) < 3)%nat ->
       state r = st
       /\ calls r = (if message u then [reply_text UsageSchedule] else []))
    /\ (forall a0 a1 a2 rest,
          args ctx = a0 :: a1 :: a2 :: rest ->
          int_of_str a1 = None ->
          state r = st
          /\ calls r = (if message u then [reply_text InvalidNumber] else [])).
Proof.
  intros u ctx st Hu r. subst r. split.
  - intros Hlen. rewrite (schedule_message_args u ctx st Hu Hlen).
    now rewrite state_reply, calls_reply.
  - intros a0 a1 a2 rest Hargs Hint. unfold schedule_message.
    rewrite (check_authorized_yes u Hu), Hargs, Hint. simpl.
    now rewrite state_reply, calls_reply.
Qed.

(** X14. [/schedule] that passes the three checks with a due time after
    [datetime.max] is left by [OverflowError]: no reply is sent, nothing is
    stored, no job is armed and no file is written. *)
Theorem schedule_message_overflows :
  forall (u : Update) (ctx : Context) (st : State) (a0 a1 a2 : string)
         (rest : list string) (delay : Z),
    effective_user u = YOUR_USER_ID ->
    args ctx = a0 :: a1 :: a2 :: rest ->
    int_of_str a1 = Some delay ->
    mem (lower a0) (channels st) = true ->
    0 < delay ->
    len (join_space (a2 :: rest)) <= 4000 ->
    datetime_max < now ctx 0%nat + delay * 60 * 1000000 ->
    schedule_message u ctx st = mkResult st [] (Some OverflowError).
Proof.
  intros u ctx st a0 a1 a2 rest delay Hu Hargs Hint Hmem Hd Hl Hover.
  rewrite (schedule_message_cases u ctx st _ _ _ _ _ Hu Hargs Hint).
  rewrite Hmem. simpl negb. cbv iota.
  destruct (Z.leb_spec delay 0); [lia|].
  destruct (Z.gtb_spec (len (join_space (a2 :: rest))) 4000); [lia|].
  unfold timedelta_minutes.
  destruct (Z.abs (delay * 60 / 86400) <=? 999999999); [|reflexivity].
  unfold datetime_add.
  destruct (Z.leb_spec (now ctx 0%nat + delay * 60 * 1000000) datetime_max);
    [lia|].
  now rewrite andb_false_r.
Qed.

(** ** Listing *)

Lemma slice_to_length n s : (String.length (slice_to n s) <= n)%nat.
Proof.
  revert s. induction n as [|n IH]; intros [|a s]; simpl; try lia.
  specialize (IH s). lia.
Qed.

Lemma slice_to_prefix n s : String.prefix (slice_to n s) s = true.
Proof.
  revert s. induction n as [|n IH]; intros [|a s]; simpl; try reflexivity.
  destruct (ascii_dec a a); [apply IH | congruence].
Qed.

Lemma listing_lines clock i items :
  map l_id (listing clock i items) = keys items
  /\ map l_channel (listing clock i items) = map channel (values items)
  /\ map l_time (listing clock i items) = map scheduled_time (values items)
  /\ map l_active (listing clock i items) = map active (values items)
  /\ Forall
       (fun e => 0 <= l_minutes e /\ (String.length (l_text e) <= 50)%nat)
       (listing clock i items)
  /\ Forall2 (fun e m => String.prefix (l_text e) (text m) = true)
       (listing clock i items) (values items).
Proof.
  revert i. induction items as [|[k m] r IH]; intros i.
  - simpl. repeat split; constructor.
  - destruct (IH (S i)) as (H1 & H2 & H3 & H4 & H5 & H6).
    unfold keys, values in *.
    cbn [listing map fst snd l_id l_channel l_time l_active].
    rewrite H1, H2, H3, H4. repeat split; constructor; auto.
    + cbn [l_minutes l_text]. split; [apply Z.le_max_l | apply slice_to_length].
    + cbn [l_text snd]. apply slice_to_prefix.
Qed.

Lemma listing_overdue clock i items n e kv :
  nth_error (listing clock i items) n = Some e ->
  nth_error items n = Some kv ->
  scheduled_time (snd kv) <= clock (i + n)%nat ->
  l_minutes e = 0.
Proof.
  revert i n. induction items as [|[k m] r IH]; intros i [|n];
    cbn [listing nth_error]; try discriminate.
  - intros [= <-] [= <-]. cbn [l_minutes snd]. rewrite Nat.add_0_r.
    intros Hdue.
    assert (Z.quot (scheduled_time m - clock i) 60000000 <= 0)
      by (apply Z.quot_le_upper_bound; lia).
    lia.
  - intros He Hkv. rewrite <- Nat.add_succ_comm. now apply IH.
Qed.

Lemma list_scheduled_reply u ctx st l :
  In (reply_text (ScheduledList l)) (calls (list_scheduled_messages u ctx st)) ->
  l = listing (now ctx) 0 (scheduled_messages st).
Proof.
  unfold list_scheduled_messages, check_authorized, reply, done.
  destruct (negb (effective_user u =? YOUR_USER_ID)), (message u),
    (scheduled_messages st) as [|p q]; cbn [negb calls In];
    intros H; repeat (destruct H as [H|H]; try discriminate H); try tauto.
  now injection H as <-.
Qed.

(** X15. The list [/listschedule] replies with has one line for each
    stored delivery, in the order of the store, with its id, channel, due
    time and active flag; the text of a line is a prefix of the text of the
    delivery of at most 50 characters; the minutes shown are never negative,
    and each line whose delivery is due or overdue at the clock reading
    taken for that line shows 0 minutes, whatever the other lines show. *)
Theorem list_scheduled_messages_lines :
  forall (u : Update) (ctx : Context) (st : State) (l : list Listing),
    In (reply_text (ScheduledList l)) (calls (list_scheduled_messages u ctx st)) ->
    map l_id l = keys (scheduled_messages st)
    /\ map l_channel l = map channel (values (scheduled_messages st))
    /\ map l_time l = map scheduled_time (values (scheduled_messages st))
    /\ map l_active l = map active (values (scheduled_messages st))
    /\ Forall (fun e => 0 <= l_minutes e /\ (String.length (l_text e) <= 50)%nat) l
    /\ Forall2 (fun e m => String.prefix (l_text e) (text m) = true)
         l (values (scheduled_messages st))
    /\ (forall n e kv,
          nth_error l n = Some e ->
          nth_error (scheduled_messages st) n = Some kv ->
          scheduled_time (snd kv) <= now ctx n ->
          l_minutes e = 0).
Proof.
  intros u ctx st l Hin.
  rewrite (list_scheduled_reply u ctx st l Hin).
  destruct (listing_lines (now ctx) 0 (scheduled_messages st))
    as (H1 & H2 & H3 & H4 & H5 & H6).
  repeat split; auto.
  intros n e kv He Hkv Hdue.
  exact (listing_overdue (now ctx) 0 _ n e kv He Hkv Hdue).
Qed.

(** X16. [/start], [/help], [/listchannels] and [/listschedule] change
    nothing, whoever sends them; the operator gets, for [/listchannels], the
    registry as it is, in its order, and the no-channels reply exactly when
    it is empty. *)
Theorem reading_commands_change_nothing :
  forall (u : Update) (ctx : Context) (st : State),
    state (start u ctx st) = st
    /\ state (help_command u ctx st) = st
    /\ state (list_channels u ctx st) = st
    /\ state (list_scheduled_messages u ctx st) = st
    /\ (effective_user u = YOUR_USER_ID -> message u = true ->
        calls (list_channels u ctx st)
        = [reply_text (match channels st with
                       | [] => NoChannels
                       | _ :: _ => ChannelList (channels st)
                       end)]).
Proof.
  intros u ctx st.
  unfold start, help_command, list_channels, list_scheduled_messages.
  repeat split.
  1-4: destruct (check_authorized u) as [[|] cs]; cbn [negb]; try reflexivity;
    repeat match goal with
           | |- state (match ?x with _ => _ end) = _ => destruct x
           end; apply state_reply.
  intros Hu Hmsg. rewrite (check_authorized_yes u Hu). cbn [negb].
  unfold reply. rewrite Hmsg. now destruct (channels st).
Qed.

(** ** More on loading *)

Lemma load_messages_fails items acc k j :
  In (k, j) items ->
  message_of_json k j = None ->
  load_messages items acc = None.
Proof.
  revert acc. induction items as [|[k0 j0] r IH]; intros acc Hin Hbad;
    [destruct Hin|].
  simpl. destruct (message_of_json k0 j0) as [m|] eqn:E; [|reflexivity].
  destruct Hin as [[= -> ->]|Hin]; [congruence|]. now apply IH.
Qed.

Lemma raises_on_load_none k j :
  raises_on_load j -> message_of_json k j = None.
Proof.
  unfold raises_on_load, message_of_json.
  destruct j as [| | | |l|o]; try reflexivity. cbn [as_obj].
  intros [H|[H|[H|[H|H]]]].
  - now rewrite H.
  - destruct (get "chat_id" o) as [c|]; [|reflexivity].
    destruct (as_int c); [|reflexivity]. now rewrite H.
  - destruct (get "chat_id" o) as [c|]; [|reflexivity].
    destruct (as_int c); [|reflexivity].
    destruct (get "text" o) as [t|]; [|reflexivity].
    destruct (as_str t); [|reflexivity].
    destruct (get "scheduled_time" o) as [x|]; [|reflexivity].
    destruct (as_str x) as [x'|]; [|reflexivity].
    destruct (fromisoformat x'); [|reflexivity]. now rewrite H.
  - destruct (get "chat_id" o) as [c|]; [|reflexivity].
    destruct (as_int c); [|reflexivity].
    destruct (get "text" o) as [t|]; [|reflexivity].
    destruct (as_str t); [|reflexivity].
    destruct (get "scheduled_time" o) as [x|]; [|reflexivity].
    destruct (as_str x) as [x'|]; [|reflexivity].
    destruct (fromisoformat x'); [|reflexivity].
    destruct (get "channel" o) as [ch|]; [|reflexivity].
    destruct (as_str ch); [|reflexivity]. now rewrite H.
  - destruct (get "chat_id" o) as [c|]; [|reflexivity].
    destruct (as_int c); [|reflexivity].
    destruct (get "text" o) as [t|]; [|reflexivity].
    destruct (as_str t); [|reflexivity].
    destruct (get "scheduled_time" o) as [[| | |x|l|o']|]; try reflexivity.
    cbn [as_str]. now rewrite H.
Qed.

(** X17. Loading the messages file is all or nothing: if the
    [ScheduledMessage(...)] call raises on one entry of the file (the entry
    is no dictionary, it lacks a key, its time is no string or does not
    parse), or the file is not JSON at all, the process starts with an
    empty store, the entries before the bad one included.  The registry is
    loaded from its own file regardless. *)
Theorem load_messages_is_all_or_nothing :
  forall (cf : file) (o : dict json) (k : string) (j : json),
    In (k, j) o ->
    raises_on_load j ->
    scheduled_messages (main cf (Holds (JObj o))) = []
    /\ scheduled_messages (main cf Garbled) = []
    /\ channels (main cf (Holds (JObj o))) = channels (main cf Absent).
Proof.
  intros cf o k j Hin Hbad. unfold main, load_data, fresh. simpl.
  rewrite (load_messages_fails o [] k j Hin (raises_on_load_none k j Hbad)).
  repeat split.
Qed.

(** ** What an event can do *)

Lemma handler_effect h u ctx st :
  exists b, effect st b (state (dispatch h u ctx st))
            /\ (b = true -> h = h_schedule).
Proof.
  destruct (Z.eq_dec (effective_user u) YOUR_USER_ID) as [Hu|Hu];
    [|exists false; rewrite (dispatch_unauthorized h u ctx st Hu);
      split; [apply eff_none | discriminate]].
  destruct h; cbn [dispatch].
  - exists false. split; [|discriminate]. unfold start.
    rewrite (check_authorized_yes u Hu). cbn [negb]. rewrite state_reply.
    apply eff_none.
  - exists false. split; [|discriminate]. unfold help_command.
    rewrite (check_authorized_yes u Hu). cbn [negb]. rewrite state_reply.
    apply eff_none.
  - exists false. split; [|discriminate].
    rewrite (add_channel_cases u ctx st Hu).
    destruct (args ctx) as [|channel_id [|a1 rest]];
      try (rewrite state_reply; apply eff_none).
    destruct (negb (startswith "-100" channel_id));
      [rewrite state_reply; apply eff_none|].
    destruct (mem (lower a1) (channels st)) eqn:E; rewrite state_reply;
      [apply eff_none | now apply eff_add].
  - exists false. split; [|discriminate]. unfold list_channels.
    rewrite (check_authorized_yes u Hu). cbn [negb].
    destruct (channels st); rewrite state_reply; apply eff_none.
  - exists false. split; [|discriminate].
    rewrite (delete_channel_cases u ctx st Hu).
    destruct (args ctx) as [|a0 rest]; [rewrite state_reply; apply eff_none|].
    destruct (mem (lower a0) (channels st)) eqn:E; cbn [negb];
      [|rewrite state_reply; apply eff_none].
    destruct (channel_has_messages (lower a0) (scheduled_messages st)) eqn:E';
      rewrite state_reply; [apply eff_none | now apply eff_remove].
  - destruct (args ctx) as [|a0 [|a1 [|a2 rest]]] eqn:Hargs;
      try (exists false; split; [|discriminate];
           rewrite (schedule_message_args u ctx st Hu)
             by (rewrite Hargs; simpl; lia);
           rewrite state_reply; apply eff_none).
    destruct (int_of_str a1) as [delay|] eqn:Hint.
    + rewrite (schedule_message_cases u ctx st _ _ _ _ _ Hu Hargs Hint).
      destruct (mem (lower a0) (channels st)) eqn:E; cbn [negb];
        [|exists false; split; [|discriminate];
          rewrite state_reply; apply eff_none].
      destruct (delay <=? 0);
        [exists false; split; [|discriminate];
         rewrite state_reply; apply eff_none|].
      destruct (len (join_space (a2 :: rest)) >? 4000);
        [exists false; split; [|discriminate];
         rewrite state_reply; apply eff_none|].
      destruct (d <- timedelta_minutes delay ;; datetime_add (now ctx 0%nat) d)
        as [due|].
      * exists true. split; [|reflexivity]. cbv zeta. rewrite state_reply.
        now apply eff_create.
      * exists false. split; [apply eff_none | discriminate].
    + exists false. split; [|discriminate]. unfold schedule_message.
      rewrite (check_authorized_yes u Hu), Hargs, Hint. cbn [negb].
      rewrite state_reply. apply eff_none.
  - exists false. split; [|discriminate]. unfold list_scheduled_messages.
    rewrite (check_authorized_yes u Hu). cbn [negb].
    destruct (scheduled_messages st); rewrite state_reply; apply eff_none.
  - exists false. split; [|discriminate]. unfold button_handler.
    rewrite (check_authorized_yes u Hu). cbn [negb].
    destruct (callback_query u) as [data|]; [|apply eff_none].
    destruct (startswith "enable_" data).
    { destruct (get (slice_from 7 data) (scheduled_messages st)) as [m|] eqn:E;
        [|apply eff_none].
      cbn [state done]. rewrite (assign_present _ _ _ _ E).
      now apply eff_toggle. }
    destruct (startswith "disable_" data).
    { destruct (get (slice_from 8 data) (scheduled_messages st)) as [m|] eqn:E;
        [|apply eff_none].
      cbn [state done]. rewrite (assign_present _ _ _ _ E).
      now apply eff_toggle. }
    destruct (startswith "delete_" data); [|apply eff_none].
    destruct (get (slice_from 7 data) (scheduled_messages st)) as [m|] eqn:E;
      [|apply eff_none].
    destruct (job m) as [h|] eqn:Hjob; [unfold schedule_removal|].
    + destruct (find (fun j => Nat.eqb (job_handle j) h) (jobs st));
        [|apply eff_none].
      exact (eff_retire st _ m (Some h) E).
    + exact (eff_retire st _ m None E).
Qed.

Lemma fire_effect tr h st : effect st false (state (fire tr h st)).
Proof.
  unfold fire.
  destruct (find (fun j => Nat.eqb (job_handle j) h) (jobs st)) as [j|];
    [|apply eff_none].
  unfold send_scheduled_message.
  change (scheduled_messages (without_job h st))
    with (scheduled_messages st).
  destruct (get (job_data j) (scheduled_messages st)) as [m|] eqn:E;
    [|apply eff_fired].
  assert (Hmem : mem (job_data j) (scheduled_messages st) = true)
    by (unfold mem; now rewrite E).
  rewrite Hmem.
  destruct (if active m then _ else _) as [cs [e|]]; [apply eff_fired|].
  exact (eff_retire st _ m (Some h) E).
Qed.

Lemma step_effect st e :
  exists b, effect st b (step st e)
            /\ (b = true -> exists u ctx, e = Handle h_schedule u ctx).
Proof.
  destruct e as [h u ctx|tr h]; cbn [step].
  - destruct (handler_effect h u ctx st) as (b & He & Hb).
    exists b. split; [exact He|]. intros ->. rewrite (Hb eq_refl). eauto.
  - exists false. split; [apply fire_effect | discriminate].
Qed.

Lemma effect_written b st st' :
  effect st b st' -> untouched st st' \/ synced st'.
Proof.
  intros He. destruct He as [|h|name id|name| |id b' m|id m [h|] Hget st0];
    try (right; split; reflexivity);
    left; repeat split.
Qed.

(** X18. No event changes the registry or the store without writing both
    files: after a command, a button or a job, either registry, store and
    files are what they were, or both files hold the registry and the store
    of the new state. *)
Theorem every_change_is_written :
  forall (st : State) (e : Event),
    untouched st (step st e) \/ synced (step st e).
Proof.
  intros st e. destruct (step_effect st e) as (b & He & _).
  exact (effect_written b st _ He).
Qed.

Lemma run_synced st es : synced st -> synced (run st es).
Proof.
  revert st. induction es as [|e es IH]; intros st Hs; [exact Hs|].
  cbn [run fold_left]. apply IH.
  destruct (step_effect st e) as (b & He & _).
  destruct (effect_written b st _ He) as [(E1 & E2 & E3 & E4)|H]; [|exact H].
  destruct Hs as [Hc Hm]. split; congruence.
Qed.

Lemma restart_synced st :
  synced st -> restart st = restart (save_data st).
Proof.
  intros [Hc Hm]. unfold restart. now rewrite Hc, Hm.
Qed.

(** X19. However the bot got there from a state whose files were in step
    with memory, stopping and starting it brings back the registry and, in
    the same order, the deliveries it held when it stopped, each with its
    id, requester, text, due time, channel and active flag. *)
Theorem restart_after_any_run :
  forall (st : State) (es : list Event),
    state_wf st ->
    synced st ->
    times_read_back (scheduled_messages (run st es)) ->
    let st' := run st es in
    channels (restart st') = channels st'
    /\ map persisted (scheduled_messages (restart st'))
       = map persisted (scheduled_messages st')
    /\ jobs (restart st') = [].
Proof.
  intros st es Hwf Hs Ht st'.
  assert (Hwf' : state_wf st') by now apply run_wf.
  assert (Hs' : synced st') by now apply run_synced.
  rewrite (restart_synced st' Hs'), (restart_after_save st' Hwf' Ht).
  cbn [channels scheduled_messages jobs].
  now rewrite persisted_reloaded.
Qed.

Lemma effect_refs b st st' :
  state_wf st -> refs_ok st -> effect st b st' -> refs_ok st'.
Proof.
  intros [Hc Hm] Hr He.
  destruct He as [|h|name id Hnew|name Hin Hfree|id m when Hch
                  |id b' m Hget|id m h Hget st0]; unfold refs_ok in *.
  - exact Hr.
  - exact Hr.
  - intros k m Hk. cbn in Hk |- *. apply mem_set_keeps. eauto.
  - intros k m Hk. cbn in Hk |- *.
    rewrite mem_del_other; [eauto|].
    intros E.
    assert (channel_has_messages name (scheduled_messages st) = true)
      by (apply (channel_has_messages_iff _ _ Hm); eauto).
    congruence.
  - intros k m' Hk. unfold scheduled in Hk |- *. cbn in Hk |- *.
    destruct (string_dec k id) as [->|Hne].
    + rewrite get_set_same in Hk. injection Hk as <-. exact Hch.
    + rewrite get_set_other in Hk by assumption. eauto.
  - intros k m' Hk. cbn in Hk |- *.
    destruct (string_dec k id) as [->|Hne].
    + rewrite get_set_same in Hk. injection Hk as <-. cbn. eauto.
    + rewrite get_set_other in Hk by assumption. eauto.
  - intros k m' Hk. subst st0. destruct h as [h|]; cbn in Hk |- *;
      apply (get_del_some _ _ _ _ Hm) in Hk; destruct Hk; eauto.
Qed.

Lemma run_wf_refs st es :
  state_wf st -> refs_ok st -> state_wf (run st es) /\ refs_ok (run st es).
Proof.
  revert st. induction es as [|e es IH]; intros st Hwf Hr; [now split|].
  cbn [run fold_left]. apply IH.
  - exact (run_wf st [e] Hwf).
  - destruct (step_effect st e) as (b & He & _).
    exact (effect_refs b st _ Hwf Hr He).
Qed.

(** X20. Referential integrity is kept: if every stored delivery names a
    registered channel, that is still so after any sequence of commands,
    buttons and jobs.  In such a state the job of an active delivery always
    finds its channel and sends to it first. *)
Theorem deliveries_keep_a_registered_channel :
  forall (st : State) (es : list Event),
    state_wf st ->
    refs_ok st ->
    refs_ok (run st es)
    /\ forall tr id m,
         get id (scheduled_messages (run st es)) = Some m ->
         active m = true ->
         exists channel_id rest,
           get (channel m) (channels (run st es)) = Some channel_id
           /\ calls (send_scheduled_message tr id (run st es))
              = send_message (ChannelId channel_id) (Plain (text m)) :: rest.
Proof.
  intros st es Hwf Hr.
  destruct (run_wf_refs st es Hwf Hr) as [Hwf' Hr'].
  split; [exact Hr'|].
  intros tr id m Hget Hact.
  pose proof (Hr' id m Hget) as Hmem. unfold mem in Hmem.
  destruct (get (channel m) (channels (run st es))) as [channel_id|] eqn:Hch;
    [|discriminate].
  exists channel_id.
  rewrite (send_active tr id m channel_id _ Hget Hact Hch).
  unfold try_send.
  destruct (tr (ChannelId channel_id) (Plain (text m))) as [e|].
  - destruct (tr (ChatId (chat_id m)) (ErrorNotice (channel m) e));
      eexists; split; reflexivity.
  - destruct (tr (ChatId (chat_id m)) (SentNotice (channel m) (text m)))
      as [e|]; [|eexists; split; reflexivity].
    destruct (tr (ChatId (chat_id m)) (ErrorNotice (channel m) e));
      eexists; split; reflexivity.
Qed.

Lemma effect_jobs st st' :
  effect st false st' ->
  incl (jobs st') (jobs st) /\ next_handle st' = next_handle st.
Proof.
  intros He. remember false as b eqn:Hb.
  destruct He as [|h|name id|name| |id b' m|id m [h|] Hget st0];
    try discriminate; cbn; split; try reflexivity;
    try apply incl_refl; apply incl_filter.
Qed.




(** X21. Only [/schedule] arms a job: every other command, every button and
    every job run leaves the queue with no job it did not have before, and
    an accepted [/schedule] adds exactly one, for the id it created, due
    after the delay in seconds. *)
Theorem only_schedule_arms_jobs :
  forall (st : State) (e : Event),
    (incl (jobs (step st e)) (jobs st)
     /\ next_handle (step st e) = next_handle st)
    \/ (exists u ctx j,
          e = Handle h_schedule u ctx
          /\ jobs (step st e) = (jobs st ++ [j])%list
          /\ job_handle j = next_handle st
          /\ get (job_data j) (scheduled_messages (step st e)) <> None).
Proof.
  intros st e. destruct (step_effect st e) as ([|] & He & Hb).
  - right. destruct (Hb eq_refl) as (u & ctx & ->). exists u, ctx.
    remember (step st (Handle h_schedule u ctx)) as st' eqn:E. clear E Hb.
    remember true as b eqn:Hb.
    destruct He as [|h|name id|name|id m when Hch|id b' m|id m h Hget st0];
      try discriminate.
    exists (mkJob (next_handle st) id id when). cbn.
    repeat split. rewrite get_set_same. discriminate.
  - left. now apply effect_jobs.
Qed.

(** X22. An accepted [/schedule] whose id is not in the store puts the
    delivery last in [listPending]; one whose id is already there (a
    delivery created in the same clock second) takes the place of that
    delivery, so that [listPending] is as before, while the job armed for
    the delivery replaced stays in the queue beside the new one. *)
Theorem schedule_message_appends_or_replaces :
  forall (u : Update) (ctx : Context) (st : State) (a0 a1 a2 : string)
         (rest : list string) (delay : Z),
    effective_user u = YOUR_USER_ID ->
    args ctx = a0 :: a1 :: a2 :: rest ->
    int_of_str a1 = Some delay ->
    mem (lower a0) (channels st) = true ->
    0 < delay ->
    len (join_space (a2 :: rest)) <= 4000 ->
    datetime_min <= now ctx 0%nat ->
    now ctx 0%nat + delay * 60 * 1000000 <= datetime_max ->
    let id := new_message_id (now ctx 1%nat) in
    let st' := state (schedule_message u ctx st) in
    (mem id (scheduled_messages st) = false ->
       listPending st' = (listPending st ++ [id])%list)
    /\ (mem id (scheduled_messages st) = true ->
          listPending st' = listPending st
          /\ option_map text (get id (scheduled_messages st'))
             = Some (join_space (a2 :: rest)))
    /\ jobs st'
       = (jobs st ++ [mkJob (next_handle st) id id (delay * 60)])%list.
Proof.
  intros u ctx st a0 a1 a2 rest delay Hu Hargs Hint Hmem Hd Hl Hlo Hhi id st'.
  subst st'.
  rewrite (schedule_message_success u ctx st _ _ _ _ _ Hu Hargs Hint Hmem Hd
             Hl Hlo Hhi).
  rewrite state_reply. unfold scheduled, listPending. fold id. cbn.
  split; [|split].
  - intros Hnew. apply keys_set_fresh. now apply mem_false_keys.
  - intros Hold. split.
    + apply keys_set_present. now apply mem_In_keys.
    + now rewrite get_set_same.
  - reflexivity.
Qed.

End Bot.

(** * The handlers on the sample data *)

Import Sample.

Example str_of_int_0 : str_of_int 0 = "0".
Proof. reflexivity. Qed.

Example str_of_int_neg : str_of_int (-42) = "-42".
Proof. reflexivity. Qed.

Example new_message_id_evening : new_message_id evening = "msg_1700000000".
Proof. reflexivity. Qed.

Example lower_sample : Sample.lower "Ops_News" = "ops_news".
Proof. reflexivity. Qed.

Example int_sample :
  Sample.int "10" = Some 10 /\ Sample.int "-5" = Some (-5)
  /\ Sample.int "ten" = None /\ Sample.int "" = None.
Proof. repeat split. Qed.

(** [/addchannel -100777 News] by the operator registers [news]. *)
Example add_channel_sample :
  channels (state (add_channel operator lib typed
                     (context ["-100777"; "News"] evening evening) idle))
  = [("ops", "-100555"); ("news", "-100777")].
Proof. reflexivity. Qed.

(** The job of an active delivery with a registered channel sends the text
    to the channel, tells the requester, and retires the delivery. *)
Example send_sample :
  send_scheduled_message lib delivers "msg_1577836200" running
  = mkResult
      (mkState [("ops", "-100555")] [] (Holds channels_json) (Holds (JObj []))
         [hello_job] 1)
      [send_message (ChannelId "-100555") (Plain "hello");
       send_message (ChatId 42) (SentNotice "ops" "hello")]
      None.
Proof. reflexivity. Qed.

Lemma running_wf : state_wf running.
Proof.
  split; (constructor; [intros [] | constructor]).
Defined.

Lemma paused_wf : state_wf paused.
Proof.
  split; (constructor; [intros [] | constructor]).
Defined.

Lemma orphaned_wf : state_wf orphaned.
Proof.
  split; [constructor | constructor; [intros [] | constructor]].
Defined.

Lemma idle_wf : state_wf idle.
Proof.
  split; [constructor; [intros [] | constructor] | constructor].
Defined.

Lemma running_times : times_read_back lib (scheduled_messages running).
Proof.
  intros id m [E|[]]. injection E as _ <-. reflexivity.
Defined.

(** C1, counterexample. The files hold the channel [ops] and one active
    delivery due 2020-01-01 00:00:00.  After [main] the delivery is in the
    store without a job and the queue is empty: no timer was armed, nothing
    was sent, and no job can run for it. *)
Lemma restart_leaves_past_due_delivery_unarmed :
  let st := main lib (Holds channels_json) (Holds (messages_json true)) in
  get "msg_1577836200" (scheduled_messages st)
  = Some (mkMsg "msg_1577836200" 42 "hello" new_year "ops" None true)
  /\ jobs st = []
  /\ fire lib delivers 0 st = mkResult st [] None.
Proof. repeat split. Qed.

Lemma restart_reloads_but_arms_no_timer_witness :
  state_wf running
  /\ times_read_back lib (scheduled_messages running)
  /\ map persisted (scheduled_messages (restart lib (save_data lib running)))
     = map persisted (scheduled_messages running)
  /\ jobs (restart lib (save_data lib running)) = [].
Proof.
  pose proof (restart_reloads_but_arms_no_timer lib running running_wf
                running_times) as H.
  split; [exact running_wf|]. split; [exact running_times|].
  split; apply H.
Defined.



(** The callback by itself on a state no run reaches: the delivery names
    the channel [ops], which the registry does not hold.  No call is made,
    and the delivery is removed. *)
Example orphaned_delivery_notifies_nobody :
  let r := send_scheduled_message lib delivers "msg_1577836200" orphaned in
  get "msg_1577836200" (scheduled_messages orphaned) = Some hello
  /\ mem (channel hello) (channels orphaned) = false
  /\ calls r = []
  /\ raised r = None
  /\ scheduled_messages (state r) = [].
Proof. repeat split. Qed.


Lemma disabled_delivery_is_retired_unsent_witness :
  state_wf paused
  /\ get "msg_1577836200" (scheduled_messages paused) = Some hello_off
  /\ active hello_off = false
  /\ calls (send_scheduled_message lib delivers "msg_1577836200" paused) = []
  /\ ~ In "msg_1577836200"
       (listPending
          (state (send_scheduled_message lib delivers "msg_1577836200" paused))).
Proof.
  pose proof (disabled_delivery_is_retired_unsent operator lib delivers paused
                "msg_1577836200" hello_off paused_wf eq_refl eq_refl) as H.
  split; [exact paused_wf|]. split; [reflexivity|]. split; [reflexivity|].
  split; apply H.
Defined.

(** C5, counterexample. [/schedule ops 10000000000000 hello] names a
    registered channel, a positive delay and a short text, and creates
    nothing: the date arithmetic overflows, the handler is left by
    [OverflowError] and the state is as before.  And
    [/schedule nowhere 0 hello], with a delay that is not positive, is
    refused for its channel, not for its delay. *)
Lemma schedule_overflows_and_checks_channel_first :
  (let ctx := context ["ops"; "10000000000000"; "hello"] evening evening in
   let r := schedule_message operator lib typed ctx idle in
   mem (Sample.lower "ops") (channels idle) = true
   /\ Sample.int "10000000000000" = Some 10000000000000
   /\ 0 < 10000000000000
   /\ len "hello" <= 4000
   /\ raised r = Some OverflowError
   /\ calls r = []
   /\ state r = idle
   /\ listPending (state r) = [])
  /\ (let ctx := context ["nowhere"; "0"; "hello"] evening evening in
      let r := schedule_message operator lib typed ctx idle in
      Sample.int "0" = Some 0
      /\ calls r = [reply_text (ScheduleChannelNotFound "nowhere")]
      /\ calls r <> [reply_text PositiveTimeRequired]).
Proof.
  repeat split; try reflexivity; try discriminate.
Qed.

Lemma schedule_message_creates_or_refuses_witness :
  let ctx := context ["ops"; "10"; "hello"] evening evening in
  let r := schedule_message operator lib typed ctx idle in
  state_wf idle
  /\ effective_user typed = operator
  /\ args ctx = ["ops"; "10"; "hello"]
  /\ Sample.int "10" = Some 10
  /\ mem (Sample.lower "ops") (channels idle) = true
  /\ 0 < 10
  /\ len (join_space ["hello"]) <= 4000
  /\ datetime_min <= now ctx 0%nat
  /\ now ctx 0%nat + 10 * 60 * 1000000 <= datetime_max
  /\ get "msg_1700000000" (scheduled_messages (state r))
     = Some (mkMsg "msg_1700000000" 42 "hello" autumn "ops" (Some 0%nat) true)
  /\ count_occ string_dec (listPending (state r)) "msg_1700000000" = 1%nat.
Proof.
  intros ctx r.
  assert (H1 : mem (Sample.lower "ops") (channels idle) = true) by reflexivity.
  assert (H2 : 0 < 10) by reflexivity.
  assert (H3 : len (join_space ["hello"]) <= 4000) by discriminate.
  assert (H4 : datetime_min <= now ctx 0%nat) by discriminate.
  assert (H5 : now ctx 0%nat + 10 * 60 * 1000000 <= datetime_max)
    by discriminate.
  pose proof (schedule_message_creates_or_refuses operator lib typed ctx idle
                "ops" "10" "hello" [] 10 idle_wf eq_refl eq_refl eq_refl)
    as (_ & _ & _ & H).
  specialize (H H1 H2 H3 H4 H5).
  repeat (split; [first [exact idle_wf | reflexivity | assumption]|]).
  split; apply H.
Defined.

Lemma delete_channel_respects_references_witness :
  let ctx := context ["OPS"] evening evening in
  let r := delete_channel operator lib typed ctx running in
  state_wf running
  /\ effective_user typed = operator
  /\ args ctx = ["OPS"]
  /\ mem (Sample.lower "OPS") (channels running) = true
  /\ (exists id m, get id (scheduled_messages running) = Some m
                   /\ channel m = Sample.lower "OPS")
  /\ state r = running
  /\ calls r = [reply_text (ChannelHasMessages "ops")].
Proof.
  intros ctx r.
  assert (Href : exists id m, get id (scheduled_messages running) = Some m
                              /\ channel m = Sample.lower "OPS")
    by (exists "msg_1577836200", hello; split; reflexivity).
  pose proof (delete_channel_respects_references operator lib typed ctx running
                "OPS" [] running_wf eq_refl eq_refl eq_refl) as [H _].
  destruct (H Href) as [Hs Hc].
  split; [exact running_wf|]. repeat (split; [reflexivity|]).
  split; [exact Href|]. split; [exact Hs | exact (Hc eq_refl)].
Defined.

Lemma disable_then_enable_only_toggles_active_witness :
  let off := pressed "disable_msg_1577836200" in
  let on := pressed "enable_msg_1577836200" in
  let ctx := context [] evening evening in
  let st1 := state (button_handler operator lib off ctx running) in
  let st2 := state (button_handler operator lib on ctx st1) in
  effective_user off = operator
  /\ effective_user on = operator
  /\ callback_query off = Some ("disable_" ++ "msg_1577836200")
  /\ callback_query on = Some ("enable_" ++ "msg_1577836200")
  /\ get "msg_1577836200" (scheduled_messages running) = Some hello
  /\ get "msg_1577836200" (scheduled_messages st1) = Some hello_off
  /\ get "msg_1577836200" (scheduled_messages st2) = Some hello
  /\ scheduled_messages st2 = scheduled_messages running.
Proof.
  intros off on ctx st1 st2.
  pose proof (disable_then_enable_only_toggles_active operator lib off on ctx ctx
                running "msg_1577836200" hello eq_refl eq_refl eq_refl eq_refl
                eq_refl) as (H1 & H2 & _ & _ & _ & _ & H3).
  do 5 (split; [reflexivity|]).
  split; [exact H1|]. split; [exact H2 | exact (H3 eq_refl)].
Defined.

Lemma save_then_load_round_trip_witness :
  state_wf running
  /\ times_read_back lib (scheduled_messages running)
  /\ channels (restart lib (save_data lib running)) = channels running
  /\ map persisted (scheduled_messages (restart lib (save_data lib running)))
     = map persisted (scheduled_messages running).
Proof.
  pose proof (save_then_load_round_trip lib running running_wf running_times)
    as (H1 & H2 & _).
  split; [exact running_wf|]. split; [exact running_times|].
  split; [exact H1 | exact H2].
Defined.

Lemma absent_delivery_is_a_no_op_witness :
  state_wf idle
  /\ get "msg_1577836200" (scheduled_messages idle) = None
  /\ send_scheduled_message lib delivers "msg_1577836200" idle
     = mkResult idle [] None
  /\ button_handler operator lib (pressed "delete_msg_1577836200")
       (context [] evening evening) idle
     = mkResult idle [answer] None.
Proof.
  pose proof (absent_delivery_is_a_no_op operator lib idle "msg_1577836200"
                idle_wf) as [H _].
  destruct (H eq_refl) as [Hs Hb].
  split; [exact idle_wf|]. split; [reflexivity|].
  split; [exact (Hs delivers)|].
  exact (Hb (pressed "delete_msg_1577836200") (context [] evening evening)
            eq_refl eq_refl).
Defined.

Lemma unauthorized_update_changes_nothing_witness :
  let ctx := context ["-100777"; "news"] evening evening in
  effective_user intruder <> operator
  /\ dispatch operator lib h_addchannel intruder ctx running
     = mkResult running [reply_text Unauthorized] None
  /\ dispatch operator lib h_button
       (mkUpdate 666 666 false (Some "delete_msg_1577836200")) ctx running
     = mkResult running [] None.
Proof.
  intros ctx.
  assert (H : effective_user intruder <> operator) by discriminate.
  assert (H' : effective_user
                 (mkUpdate 666 666 false (Some "delete_msg_1577836200"))
               <> operator) by discriminate.
  split; [exact H|]. split.
  - exact (proj1 (unauthorized_update_changes_nothing operator lib h_addchannel
                    intruder ctx running H)).
  - exact (proj1 (unauthorized_update_changes_nothing operator lib h_button
                    _ ctx running H')).
Defined.


(** The scenario of the specification, from an empty bot: register [ops],
    schedule [hello] for ten minutes later, switch it off, let its job run.
    One delivery is pending after the second step, due ten minutes after
    the command and active; the job sends nothing and leaves the store and
    the queue empty. *)
Example scenario :
  let st0 := fresh Absent Absent in
  let st1 := state (add_channel operator lib typed
                      (context ["-100555"; "ops"] evening evening) st0) in
  let st2 := state (schedule_message operator lib typed
                      (context ["ops"; "10"; "hello"] evening evening) st1) in
  let st3 := state (button_handler operator lib
                      (pressed "disable_msg_1700000000")
                      (context [] evening evening) st2) in
  let r := fire lib delivers 0 st3 in
  scheduled_messages st2
  = [("msg_1700000000",
      mkMsg "msg_1700000000" 42 "hello" (evening + 10 * 60 * 1000000) "ops"
        (Some 0%nat) true)]
  /\ option_map active (get "msg_1700000000" (scheduled_messages st3))
     = Some false
  /\ calls r = []
  /\ scheduled_messages (state r) = []
  /\ jobs (state r) = []
  /\ messages_file (state r) = Holds (JObj []).
Proof. repeat split. Qed.

(** * The further properties on the sample data *)

Lemma add_channel_registers_witness :
  let ctx := context ["-100777"; "News"] evening evening in
  effective_user typed = operator
  /\ args ctx = ["-100777"; "News"]
  /\ startswith "-100" "-100777" = true
  /\ mem (Sample.lower "News") (channels running) = false
  /\ channels (state (add_channel operator lib typed ctx running))
     = [("ops", "-100555"); ("news", "-100777")].
Proof.
  intros ctx.
  pose proof (add_channel_registers operator lib typed ctx running "-100777"
                "News" [] eq_refl eq_refl eq_refl eq_refl) as (H & _).
  do 4 (split; [reflexivity|]). exact H.
Defined.

Lemma add_channel_refuses_witness :
  let ctx := context ["-100777"; "OPS"] evening evening in
  effective_user typed = operator
  /\ args ctx = ["-100777"; "OPS"]
  /\ startswith "-100" "-100777" = true
  /\ mem (Sample.lower "OPS") (channels running) = true
  /\ state (add_channel operator lib typed ctx running) = running
  /\ calls (add_channel operator lib typed ctx running)
     = [reply_text (ChannelNameExists "ops")].
Proof.
  intros ctx.
  pose proof (add_channel_refuses operator lib typed ctx running eq_refl)
    as (_ & _ & H).
  destruct (H "-100777" "OPS" [] eq_refl eq_refl eq_refl) as [H1 H2].
  do 4 (split; [reflexivity|]). split; [exact H1 | exact H2].
Defined.

Lemma add_channel_keeps_registered_witness :
  get "ops" (channels running) = Some "-100555"
  /\ get "ops"
       (channels
          (state (add_channel operator lib typed
                    (context ["-100999"; "ops2"] evening evening) running)))
     = Some "-100555".
Proof.
  split; [reflexivity|].
  exact (add_channel_keeps_registered operator lib typed
           (context ["-100999"; "ops2"] evening evening) running
           "ops" "-100555" eq_refl).
Defined.

Lemma add_then_delete_channel_restores_witness :
  let ctx := context ["-100777"; "News"] evening evening in
  let ctx' := context ["News"] evening evening in
  state_wf running
  /\ startswith "-100" "-100777" = true
  /\ mem (Sample.lower "News") (channels running) = false
  /\ (forall id m, get id (scheduled_messages running) = Some m ->
                   channel m <> Sample.lower "News")
  /\ channels
       (state (delete_channel operator lib typed ctx'
                 (state (add_channel operator lib typed ctx running))))
     = channels running.
Proof.
  intros ctx ctx'.
  assert (Hfree : forall id m, get id (scheduled_messages running) = Some m ->
                               channel m <> Sample.lower "News").
  { intros id m H. apply get_In in H. destruct H as [E|[]].
    injection E as _ <-. discriminate. }
  pose proof (add_then_delete_channel_restores operator lib typed typed ctx ctx'
                running "-100777" "News" [] [] running_wf eq_refl eq_refl
                eq_refl eq_refl eq_refl eq_refl Hfree) as (H & _).
  split; [exact running_wf|]. do 2 (split; [reflexivity|]).
  split; [exact Hfree | exact H].
Defined.

Lemma delete_channel_refuses_unknown_witness :
  let ctx := context ["nowhere"] evening evening in
  effective_user typed = operator
  /\ args ctx = ["nowhere"]
  /\ mem (Sample.lower "nowhere") (channels running) = false
  /\ state (delete_channel operator lib typed ctx running) = running
  /\ calls (delete_channel operator lib typed ctx running)
     = [reply_text (ChannelNotFound "nowhere")].
Proof.
  intros ctx.
  pose proof (delete_channel_refuses_unknown operator lib typed ctx running
                eq_refl) as (_ & H).
  destruct (H "nowhere" [] eq_refl eq_refl) as [H1 H2].
  do 3 (split; [reflexivity|]). split; [exact H1 | exact H2].
Defined.

Lemma send_delivers_and_retires_witness :
  state_wf running
  /\ get "msg_1577836200" (scheduled_messages running) = Some hello
  /\ active hello = true
  /\ get (channel hello) (channels running) = Some "-100555"
  /\ calls (send_scheduled_message lib delivers "msg_1577836200" running)
     = [send_message (ChannelId "-100555") (Plain "hello");
        send_message (ChatId 42) (SentNotice "ops" "hello")]
  /\ get "msg_1577836200"
       (scheduled_messages
          (state (send_scheduled_message lib delivers "msg_1577836200" running)))
     = None.
Proof.
  pose proof (send_delivers_and_retires lib delivers running "msg_1577836200"
                "-100555" hello running_wf eq_refl eq_refl eq_refl eq_refl
                eq_refl) as (H1 & _ & H2 & _).
  split; [exact running_wf|]. do 3 (split; [reflexivity|]).
  split; [exact H1 | exact H2].
Defined.

Lemma send_failure_is_reported_and_retired_witness :
  state_wf running
  /\ channel_down (ChannelId "-100555") (Plain "hello") = Some "Forbidden"
  /\ channel_down (ChatId 42) (ErrorNotice "ops" "Forbidden") = None
  /\ calls (send_scheduled_message lib channel_down "msg_1577836200" running)
     = [send_message (ChannelId "-100555") (Plain "hello");
        send_message (ChatId 42) (ErrorNotice "ops" "Forbidden")]
  /\ get "msg_1577836200"
       (scheduled_messages
          (state (send_scheduled_message lib channel_down "msg_1577836200"
                    running)))
     = None.
Proof.
  pose proof (send_failure_is_reported_and_retired lib channel_down running
                "msg_1577836200" "-100555" "Forbidden" hello running_wf
                eq_refl eq_refl eq_refl eq_refl) as (H & _).
  destruct (H eq_refl) as (H1 & _ & H2).
  split; [exact running_wf|]. do 2 (split; [reflexivity|]).
  split; [exact H1 | exact H2].
Defined.

Lemma double_failure_leaves_delivery_stored_witness :
  find (fun j => Nat.eqb (job_handle j) 0) (jobs running) = Some hello_job
  /\ refuses (ChannelId "-100555") (Plain "hello") = Some "Forbidden"
  /\ refuses (ChatId 42) (ErrorNotice "ops" "Forbidden") = Some "Forbidden"
  /\ raised (fire lib refuses 0 running) = Some (SendError "Forbidden")
  /\ get "msg_1577836200" (scheduled_messages (state (fire lib refuses 0 running)))
     = Some hello
  /\ jobs (state (fire lib refuses 0 running)) = [].
Proof.
  pose proof (double_failure_leaves_delivery_stored lib refuses running 0
                hello_job "-100555" "Forbidden" "Forbidden" hello eq_refl
                eq_refl eq_refl eq_refl eq_refl eq_refl) as (H1 & _ & H2 & _).
  do 3 (split; [reflexivity|]). split; [exact H1|].
  split; [exact H2 | reflexivity].
Defined.

Lemma delete_button_cancels_and_removes_witness :
  let u := pressed "delete_msg_1577836200" in
  let ctx := context [] evening evening in
  let stale := state (fire lib refuses 0 running) in
  state_wf running
  /\ effective_user u = operator
  /\ callback_query u = Some ("delete_" ++ "msg_1577836200")
  /\ get "msg_1577836200" (scheduled_messages running) = Some hello
  /\ find (fun j => Nat.eqb (job_handle j) 0) (jobs running) <> None
  /\ get "msg_1577836200"
       (scheduled_messages (state (button_handler operator lib u ctx running)))
     = None
  /\ jobs (state (button_handler operator lib u ctx running)) = []
  /\ state_wf stale
  /\ get "msg_1577836200" (scheduled_messages stale) = Some hello
  /\ find (fun j => Nat.eqb (job_handle j) 0) (jobs stale) = None
  /\ button_handler operator lib u ctx stale
     = mkResult stale [answer] (Some JobLookupError).
Proof.
  intros u ctx stale.
  assert (Hq : forall h, job hello = Some h ->
                 find (fun j => Nat.eqb (job_handle j) h) (jobs running)
                 <> None) by (intros h [= <-]; discriminate).
  pose proof (delete_button_cancels_and_removes operator lib u ctx running
                "msg_1577836200" hello running_wf eq_refl eq_refl eq_refl)
    as (H & _).
  destruct (H Hq) as (H1 & _ & H2 & _).
  assert (Hwf : state_wf stale)
    by (split; (constructor; [intros [] | constructor])).
  pose proof (delete_button_cancels_and_removes operator lib u ctx stale
                "msg_1577836200" hello Hwf eq_refl eq_refl eq_refl)
    as (_ & H').
  split; [exact running_wf|]. do 3 (split; [reflexivity|]).
  split; [discriminate|]. split; [exact H1|]. split; [exact H2|].
  split; [exact Hwf|]. do 2 (split; [reflexivity|]).
  exact (H' 0%nat eq_refl eq_refl).
Defined.

Lemma button_without_delivery_only_answers_witness :
  let u := pressed "enable_msg_1" in
  let ctx := context [] evening evening in
  effective_user u = operator
  /\ callback_query u = Some "enable_msg_1"
  /\ get "msg_1" (scheduled_messages running) = None
  /\ button_handler operator lib u ctx running = mkResult running [answer] None.
Proof.
  intros u ctx.
  pose proof (button_without_delivery_only_answers operator lib u ctx running
                "enable_msg_1" eq_refl eq_refl) as (H & _).
  do 3 (split; [reflexivity|]).
  exact (H "msg_1" (or_introl eq_refl) eq_refl).
Defined.

Lemma toggle_twice_is_toggle_once_witness :
  let u := pressed "disable_msg_1577836200" in
  let ctx := context [] evening evening in
  effective_user u = operator
  /\ callback_query u = Some ("disable_" ++ "msg_1577836200")
  /\ state (button_handler operator lib u ctx
              (state (button_handler operator lib u ctx running)))
     = state (button_handler operator lib u ctx running).
Proof.
  intros u ctx. do 2 (split; [reflexivity|]).
  exact (toggle_twice_is_toggle_once operator lib u u ctx ctx running
           "msg_1577836200" eq_refl eq_refl
           (or_introl (conj eq_refl eq_refl))).
Defined.

Lemma schedule_message_rejects_bad_number_witness :
  let ctx := context ["nowhere"; "ten"; "hello"] evening evening in
  effective_user typed = operator
  /\ args ctx = ["nowhere"; "ten"; "hello"]
  /\ Sample.int "ten" = None
  /\ state (schedule_message operator lib typed ctx idle) = idle
  /\ calls (schedule_message operator lib typed ctx idle)
     = [reply_text InvalidNumber].
Proof.
  intros ctx.
  pose proof (schedule_message_rejects_bad_number operator lib typed ctx idle
                eq_refl) as (_ & H).
  destruct (H "nowhere" "ten" "hello" [] eq_refl eq_refl) as [H1 H2].
  do 3 (split; [reflexivity|]). split; [exact H1 | exact H2].
Defined.

Lemma schedule_message_overflows_witness :
  let ctx := context ["ops"; "10000000000000"; "hello"] evening evening in
  effective_user typed = operator
  /\ args ctx = ["ops"; "10000000000000"; "hello"]
  /\ Sample.int "10000000000000" = Some 10000000000000
  /\ mem (Sample.lower "ops") (channels idle) = true
  /\ 0 < 10000000000000
  /\ len (join_space ["hello"]) <= 4000
  /\ datetime_max < now ctx 0%nat + 10000000000000 * 60 * 1000000
  /\ schedule_message operator lib typed ctx idle
     = mkResult idle [] (Some OverflowError).
Proof.
  intros ctx.
  assert (H3 : len (join_space ["hello"]) <= 4000) by discriminate.
  do 5 (split; [reflexivity|]). split; [exact H3|]. split; [reflexivity|].
  exact (schedule_message_overflows operator lib typed ctx idle "ops"
           "10000000000000" "hello" [] 10000000000000 eq_refl eq_refl eq_refl
           eq_refl eq_refl H3 eq_refl).
Defined.

Lemma list_scheduled_messages_lines_witness :
  let later := mkMsg "msg_1700000000" 42 "later" autumn "ops" (Some 1%nat) true in
  let st := mkState [("ops", "-100555")]
              [("msg_1577836200", hello); ("msg_1700000000", later)]
              (Holds channels_json) (Holds (JObj [])) [] 2 in
  let ctx := context [] evening evening in
  let l := [mkListing "msg_1577836200" "ops" "hello" new_year 0 true;
            mkListing "msg_1700000000" "ops" "later" autumn 10 true] in
  In (reply_text (ScheduledList l))
     (calls (list_scheduled_messages operator typed ctx st))
  /\ map l_id l = keys (scheduled_messages st)
  /\ nth_error l 0 = Some (mkListing "msg_1577836200" "ops" "hello" new_year 0 true)
  /\ nth_error (scheduled_messages st) 0 = Some ("msg_1577836200", hello)
  /\ scheduled_time hello <= now ctx 0%nat
  /\ l_minutes (mkListing "msg_1577836200" "ops" "hello" new_year 0 true) = 0.
Proof.
  intros later st ctx l.
  assert (Hin : In (reply_text (ScheduledList l))
                  (calls (list_scheduled_messages operator typed ctx st)))
    by (left; reflexivity).
  assert (Hdue : scheduled_time hello <= now ctx 0%nat) by discriminate.
  pose proof (list_scheduled_messages_lines operator typed ctx st l Hin)
    as (H1 & _ & _ & _ & _ & _ & H2).
  split; [exact Hin|]. split; [exact H1|]. do 2 (split; [reflexivity|]).
  split; [exact Hdue|].
  exact (H2 0%nat _ ("msg_1577836200", hello) eq_refl eq_refl Hdue).
Defined.

Lemma load_messages_is_all_or_nothing_witness :
  let good := JObj [("chat_id", JInt 42); ("text", JStr "hello");
                    ("scheduled_time", JStr "2020-01-01T00:00:00");
                    ("channel", JStr "ops"); ("active", JBool true)] in
  let bad := JObj [("chat_id", JInt 42); ("text", JStr "bye")] in
  let o := [("msg_1577836200", good); ("msg_1577836201", bad)] in
  In ("msg_1577836201", bad) o
  /\ raises_on_load lib bad
  /\ ~ raises_on_load lib good
  /\ scheduled_messages (main lib (Holds channels_json) (Holds (JObj o))) = []
  /\ channels (main lib (Holds channels_json) (Holds (JObj o)))
     = [("ops", "-100555")].
Proof.
  intros good bad o.
  assert (Hin : In ("msg_1577836201", bad) o) by (right; left; reflexivity).
  assert (Hbad : raises_on_load lib bad) by (right; right; left; reflexivity).
  pose proof (load_messages_is_all_or_nothing lib (Holds channels_json) o
                "msg_1577836201" bad Hin Hbad) as (H1 & _ & H2).
  split; [exact Hin|]. split; [exact Hbad|].
  split; [intros [H|[H|[H|[H|H]]]]; discriminate H|].
  split; [exact H1 | exact H2].
Defined.

Lemma running_synced : synced lib running.
Proof. split; reflexivity. Defined.

Lemma restart_after_any_run_witness :
  let es := [Handle h_button (pressed "disable_msg_1577836200")
               (context [] evening evening);
             Handle h_addchannel typed
               (context ["-100777"; "News"] evening evening)] in
  state_wf running
  /\ synced lib running
  /\ times_read_back lib (scheduled_messages (run operator lib running es))
  /\ channels (restart lib (run operator lib running es))
     = [("ops", "-100555"); ("news", "-100777")]
  /\ map persisted (scheduled_messages (restart lib (run operator lib running es)))
     = [persisted ("msg_1577836200", hello_off)].
Proof.
  intros es.
  assert (Ht : times_read_back lib
                 (scheduled_messages (run operator lib running es))).
  { intros id m [E|[]]. injection E as _ <-. reflexivity. }
  pose proof (restart_after_any_run operator lib running es running_wf
                running_synced Ht) as (H1 & H2 & _).
  split; [exact running_wf|]. split; [exact running_synced|].
  split; [exact Ht|]. split; [exact H1 | exact H2].
Defined.

Lemma running_refs : refs_ok running.
Proof.
  intros id m H. apply get_In in H. destruct H as [E|[]].
  injection E as _ <-. reflexivity.
Defined.

Lemma deliveries_keep_a_registered_channel_witness :
  let es := [Handle h_deletechannel typed (context ["ops"] evening evening);
             Handle h_addchannel typed
               (context ["-100777"; "News"] evening evening)] in
  state_wf running
  /\ refs_ok running
  /\ refs_ok (run operator lib running es).
Proof.
  intros es.
  split; [exact running_wf|]. split; [exact running_refs|].
  exact (proj1 (deliveries_keep_a_registered_channel operator lib running es
                  running_wf running_refs)).
Defined.

Lemma schedule_message_appends_or_replaces_witness :
  let ctx := context ["ops"; "10"; "first"] evening evening in
  let ctx' := context ["ops"; "10"; "second"] (evening + 500000)
                (evening + 500000) in
  let st1 := state (schedule_message operator lib typed ctx idle) in
  effective_user typed = operator
  /\ args ctx' = ["ops"; "10"; "second"]
  /\ Sample.int "10" = Some 10
  /\ mem (Sample.lower "ops") (channels st1) = true
  /\ 0 < 10
  /\ len (join_space ["second"]) <= 4000
  /\ datetime_min <= now ctx' 0%nat
  /\ now ctx' 0%nat + 10 * 60 * 1000000 <= datetime_max
  /\ mem (new_message_id (now ctx' 1%nat)) (scheduled_messages st1) = true
  /\ listPending (state (schedule_message operator lib typed ctx' st1))
     = listPending st1.
Proof.
  intros ctx ctx' st1.
  assert (H3 : len (join_space ["second"]) <= 4000) by discriminate.
  assert (H4 : datetime_min <= now ctx' 0%nat) by discriminate.
  assert (H5 : now ctx' 0%nat + 10 * 60 * 1000000 <= datetime_max)
    by discriminate.
  pose proof (schedule_message_appends_or_replaces operator lib typed ctx' st1
                "ops" "10" "second" [] 10 eq_refl eq_refl eq_refl eq_refl
                eq_refl H3 H4 H5) as (_ & H & _).
  do 5 (split; [reflexivity|]). split; [exact H3|]. split; [exact H4|].
  split; [exact H5|]. split; [reflexivity|].
  exact (proj1 (H eq_refl)).
Defined.
